(** * Route53 failover controller ([failover.py])

    A shallow embedding of the Lambda handler that swaps the Route53
    failover PRIMARY/SECONDARY records from CloudWatch alarm notifications,
    together with the properties of its decision logic.

    The embedding follows the Python source function by function:
    - module-level environment constants become the record [config];
    - the two boto3 clients, [json.loads] and the clock become the record
      [externals], passed explicitly;
    - calls to the clients and to the logger are recorded, in program
      order, in a trace of [effect]s;
    - Python exceptions are the [Raised] outcome of the monad [M], and
      [try ... except Exception] is [try_except]. *)

From Stdlib Require Import QArith Ascii String.
From stdpp Require Import gmap strings list fin_maps sorting.

Local Open Scope string_scope.
Local Open Scope Z_scope.
Local Open Scope list_scope.
Set Warnings "-register-all".

(** ** Python values

    The inbound event and the decoded alarm payload are JSON documents, so
    they are modelled by the values [json.loads] produces.  A dict is kept
    as an association list in key order. *)

Inductive pyval : Type :=
| PNone
| PBool (b : bool)
| PInt (z : Z)
| PFloat (q : Q)
| PStr (s : string)
| PList (l : list pyval)
| PDict (d : list (string * pyval)).

(** Python exceptions raised along the paths of the handler; every one of
    them is a subclass of [Exception]. *)
Inductive exn : Type :=
| KeyError
| IndexError
| TypeError
| AttributeError
| JSONDecodeError
| ClientError (code : string).

Inductive outcome (A : Type) : Type :=
| Returned (a : A)
| Raised (e : exn).
Arguments Returned {A} a.
Arguments Raised {A} e.

(** ** Configuration (the environment constants of the module) *)

Record config : Type := {
  HOSTED_ZONE_ID : string;
  RECORD_NAME : string;
  PRIMARY_SET_ID : string;
  SECONDARY_SET_ID : string;
  PRIMARY_ALB_DNS : string;
  PRIMARY_ALB_ZONE_ID : string;
  SECONDARY_ALB_DNS : string;
  SECONDARY_ALB_ZONE_ID : string;
  PRIMARY_REGION_LABEL : string;
  SECONDARY_REGION_LABEL : string
}.

(** ** Route53 request data *)

Record alias_target : Type := {
  HostedZoneId : string;
  DNSName : string;
  EvaluateTargetHealth : bool
}.

Record resource_record_set : Type := {
  Name : string;
  Type_ : string;
  SetIdentifier : string;
  Failover : string;
  TTL : Z;
  AliasTarget : alias_target
}.

Record change : Type := {
  Action : string;
  ResourceRecordSet : resource_record_set
}.

Record change_batch : Type := {
  Comment : string;
  Changes : list change
}.

(** ** CloudWatch request and response data

    A datapoint always carries its [Timestamp] (read with [d['Timestamp']]);
    the statistic is read with [.get('Average')] and may be missing.
    Timestamps are instants on the UTC time line, in seconds.  CloudWatch
    stores only finite metric values, so a statistic is a rational. *)

Record metric_query : Type := {
  Namespace : string;
  MetricName : string;
  DimensionRegion : string;
  StartTime : Z;
  EndTime : Z;
  Period : Z;
  Statistics : list string
}.

Record datapoint : Type := {
  Timestamp : Z;
  Average : option Q
}.

Record metric_response : Type := {
  Datapoints : option (list datapoint)
}.

(** ** External collaborators *)

Record externals : Type := {
  utcnow : Z;
  get_metric_statistics : metric_query -> outcome metric_response;
  change_resource_record_sets : string -> change_batch -> outcome string;
  json_loads : string -> option pyval
}.

(** ** Effects and the handler monad *)

Inductive level : Type := INFO | WARNING | ERROR | EXCEPTION.

Inductive effect : Type :=
| Log (lvl : level) (fmt : string)
| CloudWatchCall (q : metric_query)
| Route53Call (zone : string) (batch : change_batch).

Definition M (A : Type) : Type := (list effect * outcome A)%type.

Definition ret {A} (a : A) : M A := ([], Returned a).
Definition raise {A} (e : exn) : M A := ([], Raised e).
Definition emit (ev : effect) : M unit := ([ev], Returned tt).
Definition lift {A} (o : outcome A) : M A := ([], o).

Definition bind {A B} (m : M A) (k : A -> M B) : M B :=
  match m with
  | (t, Returned a) => let (t', r) := k a in (t ++ t', r)
  | (t, Raised e) => (t, Raised e)
  end.

(** [try: m except Exception as e: h e] *)
Definition try_except {A} (m : M A) (h : exn -> M A) : M A :=
  match m with
  | (t, Returned a) => (t, Returned a)
  | (t, Raised e) => let (t', r) := h e in (t ++ t', r)
  end.

Notation "'do' x <- m ; k" := (bind m (fun x => k))
  (at level 10, x name, m at level 100, k at level 200).

Definition trace {A} (m : M A) : list effect := fst m.
Definition result {A} (m : M A) : outcome A := snd m.

Definition logger_info (fmt : string) : M unit := emit (Log INFO fmt).
Definition logger_warning (fmt : string) : M unit := emit (Log WARNING fmt).
Definition logger_error (fmt : string) : M unit := emit (Log ERROR fmt).
Definition logger_exception (fmt : string) : M unit := emit (Log EXCEPTION fmt).

Definition health_queries (t : list effect) : list metric_query :=
  omap (fun ev => match ev with CloudWatchCall q => Some q | _ => None end) t.
Definition publishes (t : list effect) : list (string * change_batch) :=
  omap (fun ev => match ev with Route53Call z b => Some (z, b) | _ => None end) t.

(** ** Python primitives used by the handler *)

(** [bool(v)] *)
Definition truthy (v : pyval) : bool :=
  match v with
  | PNone => false
  | PBool b => b
  | PInt z => negb (z =? 0)
  | PFloat q => negb (Qeq_bool q 0)
  | PStr s => negb (String.eqb s "")
  | PList l => match l with [] => false | _ => true end
  | PDict d => match d with [] => false | _ => true end
  end.

Fixpoint dict_lookup (d : list (string * pyval)) (k : string) : option pyval :=
  match d with
  | [] => None
  | (k', v) :: d' => if String.eqb k' k then Some v else dict_lookup d' k
  end.

(** [v[k]] for a string key *)
Definition getitem_key (v : pyval) (k : string) : outcome pyval :=
  match v with
  | PDict d => match dict_lookup d k with
               | Some x => Returned x
               | None => Raised KeyError
               end
  | _ => Raised TypeError
  end.

(** [v[0]] *)
Definition getitem_0 (v : pyval) : outcome pyval :=
  match v with
  | PList l => match l with
               | x :: _ => Returned x
               | [] => Raised IndexError
               end
  | PStr s => match s with
              | String c _ => Returned (PStr (String c EmptyString))
              | EmptyString => Raised IndexError
              end
  | PDict _ => Raised KeyError
  | _ => Raised TypeError
  end.

(** [v.get(k)] *)
Definition py_get (v : pyval) (k : string) : outcome pyval :=
  match v with
  | PDict d => Returned (default PNone (dict_lookup d k))
  | _ => Raised AttributeError
  end.

(** [v == s] for a string literal [s] *)
Definition eq_str (v : pyval) (s : string) : bool :=
  match v with
  | PStr s' => String.eqb s' s
  | _ => false
  end.

(** [sub in s] on strings: [sub] occurs in [s] at some position. *)
Fixpoint contains (sub s : string) : bool :=
  String.prefix sub s ||
  match s with
  | EmptyString => false
  | String _ s' => contains sub s'
  end.

(** [label in v] *)
Definition py_in (label : string) (v : pyval) : outcome bool :=
  match v with
  | PStr s => Returned (contains label s)
  | PList l => Returned (existsb (fun x => eq_str x label) l)
  | PDict d => Returned (existsb (fun kv => String.eqb (fst kv) label) d)
  | _ => Raised TypeError
  end.

(** [s.split(sep, 1)] for a one-character separator *)
Fixpoint split_once (sep : Ascii.ascii) (s : string) : list string :=
  match s with
  | EmptyString => [EmptyString]
  | String c s' =>
      if Ascii.eqb c sep then [EmptyString; s']
      else match split_once sep s' with
           | h :: tl => String c h :: tl
           | [] => []
           end
  end.

(** [sorted(l, key=lambda d: d['Timestamp'])]: Python's sort is stable, and
    a stable sort is determined by its input; it is written here as a
    stable insertion sort. *)
Fixpoint insert_by_timestamp (d : datapoint) (l : list datapoint) : list datapoint :=
  match l with
  | [] => [d]
  | x :: l' =>
      if Timestamp d <=? Timestamp x then d :: x :: l'
      else x :: insert_by_timestamp d l'
  end.

Fixpoint sorted_by_timestamp (l : list datapoint) : list datapoint :=
  match l with
  | [] => []
  | d :: l' => insert_by_timestamp d (sorted_by_timestamp l')
  end.

(** ** The program *)

Section Program.

Variable cfg : config.
Variable ext : externals.

(** The request built by [get_latest_region_health]. *)
Definition region_health_query (region_label : string) : metric_query :=
  let end_ := utcnow ext in
  let start := end_ - 5 * 60 in
  {| Namespace := "MyApp/Failover";
     MetricName := "RegionHealth";
     DimensionRegion := region_label;
     StartTime := start;
     EndTime := end_;
     Period := 60;
     Statistics := ["Average"] |}.

Definition cloudwatch_get_metric_statistics (q : metric_query) : M metric_response :=
  do _ <- emit (CloudWatchCall q) ; lift (get_metric_statistics ext q).

Definition route53_change_resource_record_sets
    (zone : string) (batch : change_batch) : M string :=
  do _ <- emit (Route53Call zone batch) ; lift (change_resource_record_sets ext zone batch).

Definition get_latest_region_health (region_label : string) : M (option Q) :=
  try_except
    (do resp <- cloudwatch_get_metric_statistics (region_health_query region_label) ;
     let datapoints := default [] (Datapoints resp) in
     match datapoints with
     | [] => ret None
     | _ :: _ =>
         match last (sorted_by_timestamp datapoints) with
         | Some latest => ret (Average latest)
         | None => raise IndexError
         end
     end)
    (fun e =>
       do _ <- logger_exception "Failed to get metric for %s: %s" ;
       ret None).

(** The [changes] list built by [upsert_failover_records]. *)
Definition failover_changes (primary_is_east : bool) : list change :=
  let '(primary_alias, secondary_alias, primary_set_id, secondary_set_id,
        primary_fail, secondary_fail) :=
    if primary_is_east then
      ({| HostedZoneId := PRIMARY_ALB_ZONE_ID cfg;
          DNSName := PRIMARY_ALB_DNS cfg;
          EvaluateTargetHealth := false |},
       {| HostedZoneId := SECONDARY_ALB_ZONE_ID cfg;
          DNSName := SECONDARY_ALB_DNS cfg;
          EvaluateTargetHealth := false |},
       PRIMARY_SET_ID cfg,
       SECONDARY_SET_ID cfg,
       "PRIMARY",
       "SECONDARY")
    else
      ({| HostedZoneId := SECONDARY_ALB_ZONE_ID cfg;
          DNSName := SECONDARY_ALB_DNS cfg;
          EvaluateTargetHealth := false |},
       {| HostedZoneId := PRIMARY_ALB_ZONE_ID cfg;
          DNSName := PRIMARY_ALB_DNS cfg;
          EvaluateTargetHealth := false |},
       SECONDARY_SET_ID cfg,
       PRIMARY_SET_ID cfg,
       "PRIMARY",
       "SECONDARY")
  in
  [ {| Action := "UPSERT";
       ResourceRecordSet :=
         {| Name := RECORD_NAME cfg;
            Type_ := "A";
            SetIdentifier := primary_set_id;
            Failover := primary_fail;
            TTL := 60;
            AliasTarget :=
              {| HostedZoneId := HostedZoneId primary_alias;
                 DNSName := DNSName primary_alias;
                 EvaluateTargetHealth := EvaluateTargetHealth primary_alias |} |} |};
    {| Action := "UPSERT";
       ResourceRecordSet :=
         {| Name := RECORD_NAME cfg;
            Type_ := "A";
            SetIdentifier := secondary_set_id;
            Failover := secondary_fail;
            TTL := 60;
            AliasTarget :=
              {| HostedZoneId := HostedZoneId secondary_alias;
                 DNSName := DNSName secondary_alias;
                 EvaluateTargetHealth := EvaluateTargetHealth secondary_alias |} |} |} ].

Definition failover_change_batch (primary_is_east : bool) : change_batch :=
  {| Comment := "Failover swap by Lambda";
     Changes := failover_changes primary_is_east |}.

Definition upsert_failover_records (primary_is_east : bool) : M string :=
  do _ <- logger_info "Applying Route53 ChangeResourceRecordSets with %s" ;
  do resp <- route53_change_resource_record_sets
            (HOSTED_ZONE_ID cfg) (failover_change_batch primary_is_east) ;
  do _ <- logger_info "Route53 response: %s" ;
  ret resp.

(** [json.loads(message)]: a [TypeError] unless [message] is a string, a
    [JSONDecodeError] when the text is not a JSON document. *)
Definition py_json_loads (message : pyval) : outcome pyval :=
  match message with
  | PStr s => match json_loads ext s with
              | Some v => Returned v
              | None => Raised JSONDecodeError
              end
  | _ => Raised TypeError
  end.

(** Python's [None] result is the value [PNone]. *)
Definition parse_sns_event (event : pyval) : M pyval :=
  try_except
    (do records <- lift (getitem_key event "Records") ;
     do record <- lift (getitem_0 records) ;
     do sns_record <- lift (getitem_key record "Sns") ;
     do message <- lift (getitem_key sns_record "Message") ;
     do msg <- lift (py_json_loads message) ;
     ret msg)
    (fun e =>
       do _ <- logger_exception "Failed to parse SNS event: %s" ;
       ret PNone).

Definition var_is_primary_alarm (alarm_name : pyval) : M bool :=
  do domain <- lift (match split_once "."%char (RECORD_NAME cfg) with
                  | _ :: x :: _ => Returned x
                  | _ => Raised IndexError
                  end) ;
  let expected := "RegionDown-" +:+ PRIMARY_REGION_LABEL cfg +:+ "-" +:+ domain in
  if truthy alarm_name then
    do b <- lift (py_in (PRIMARY_REGION_LABEL cfg) alarm_name) ;
    if b then ret true else ret false
  else ret false.

(** [sec_health <= 0.5] *)
Definition le_half (h : Q) : bool := Qle_bool h (1 # 2).

Definition lambda_handler (event : pyval) : M unit :=
  do _ <- logger_info "Event: %s" ;
  do msg <- parse_sns_event event ;
  if negb (truthy msg) then
    do _ <- logger_error "No parsed message, aborting" ;
    ret tt
  else
    do alarm_name <- lift (py_get msg "AlarmName") ;
    do new_state <- lift (py_get msg "NewStateValue") ;
    do _ <- logger_info "Alarm %s changed to %s" ;
    do is_primary <- var_is_primary_alarm alarm_name ;
    if is_primary then
      do _ <- logger_info "Event for primary alarm" ;
      if eq_str new_state "ALARM" then
        do sec_health <- get_latest_region_health (SECONDARY_REGION_LABEL cfg) ;
        do _ <- logger_info "Secondary region latest health datapoint: %s" ;
        match sec_health with
        | None =>
            do _ <- logger_warning "No datapoint for secondary; aborting switch" ;
            ret tt
        | Some h =>
            if le_half h then
              do _ <- logger_error "Secondary appears unhealthy (%s); aborting failover" ;
              ret tt
            else
              do _ <- upsert_failover_records false ;
              do _ <- logger_info "Switched to secondary as PRIMARY" ;
              ret tt
        end
      else if eq_str new_state "OK" then
        do pri_health <- get_latest_region_health (PRIMARY_REGION_LABEL cfg) ;
        do _ <- logger_info "Primary latest health datapoint: %s" ;
        match pri_health with
        | None =>
            do _ <- logger_warning "Primary not healthy enough to revert. Skipping revert." ;
            ret tt
        | Some h =>
            if le_half h then
              do _ <- logger_warning "Primary not healthy enough to revert. Skipping revert." ;
              ret tt
            else
              do _ <- upsert_failover_records true ;
              do _ <- logger_info "Reverted to primary as PRIMARY" ;
              ret tt
        end
      else
        do _ <- logger_info "Unhandled new state: %s" ;
        ret tt
    else
      do _ <- logger_info "Alarm is not primary alarm; ignoring in this version" ;
      ret tt.

End Program.

(** ** Specification vocabulary *)

(** [sub] occurs in [s]: the meaning of Python's [sub in s] on strings. *)
Definition is_substring (sub s : string) : Prop :=
  exists pre post, s = pre +:+ sub +:+ post.

(** The character [c] occurs in [s]. *)
Fixpoint mem_char (c : Ascii.ascii) (s : string) : bool :=
  match s with
  | EmptyString => false
  | String c' s' => Ascii.eqb c' c || mem_char c s'
  end.

(** The record sets of the hosted zone, on the provider's side, keyed by
    name, type and set identifier.  An UPSERT creates the record set or
    replaces the one with the same key (create-or-replace); the controller
    issues no other action. *)
Definition rrset_key (r : resource_record_set) : string * string * string :=
  (Name r, Type_ r, SetIdentifier r).

Definition apply_change
    (zone : gmap (string * string * string) resource_record_set) (c : change)
  : gmap (string * string * string) resource_record_set :=
  if String.eqb (Action c) "UPSERT"
  then <[rrset_key (ResourceRecordSet c) := ResourceRecordSet c]> zone
  else zone.

Definition apply_batch
    (zone : gmap (string * string * string) resource_record_set) (b : change_batch)
  : gmap (string * string * string) resource_record_set :=
  foldl apply_change zone (Changes b).

(** The zone after the writes of a trace, oldest first, each of them
    accepted. *)
Definition zone_after
    (zone : gmap (string * string * string) resource_record_set) (t : list effect)
  : gmap (string * string * string) resource_record_set :=
  foldl apply_batch zone (snd <$> publishes t).

(** The endpoint a batch binds to a failover role. *)
Definition endpoint_of_role (role : string) (cs : list change) : list (string * string) :=
  omap (fun c =>
          let r := ResourceRecordSet c in
          if String.eqb (Failover r) role
          then Some (HostedZoneId (AliasTarget r), DNSName (AliasTarget r))
          else None) cs.

(** The endpoint a batch binds to a set identifier. *)
Definition endpoint_of_set_id (sid : string) (cs : list change) : list (string * string) :=
  omap (fun c =>
          let r := ResourceRecordSet c in
          if String.eqb (SetIdentifier r) sid
          then Some (HostedZoneId (AliasTarget r), DNSName (AliasTarget r))
          else None) cs.

(** The set identifier a batch gives to a failover role. *)
Definition set_id_of_role (role : string) (cs : list change) : list string :=
  omap (fun c =>
          let r := ResourceRecordSet c in
          if String.eqb (Failover r) role then Some (SetIdentifier r) else None) cs.

(** The ways the envelope decoding of [parse_sns_event] fails, one per step
    of its [try] body. *)
Inductive decode_failure (ext : externals) (event : pyval) : Prop :=
| missing_records e :
    getitem_key event "Records" = Raised e ->
    decode_failure ext event
| empty_batch records e :
    getitem_key event "Records" = Returned records ->
    getitem_0 records = Raised e ->
    decode_failure ext event
| missing_sns records record e :
    getitem_key event "Records" = Returned records ->
    getitem_0 records = Returned record ->
    getitem_key record "Sns" = Raised e ->
    decode_failure ext event
| missing_message records record sns_record e :
    getitem_key event "Records" = Returned records ->
    getitem_0 records = Returned record ->
    getitem_key record "Sns" = Returned sns_record ->
    getitem_key sns_record "Message" = Raised e ->
    decode_failure ext event
| malformed_payload records record sns_record message e :
    getitem_key event "Records" = Returned records ->
    getitem_0 records = Returned record ->
    getitem_key record "Sns" = Returned sns_record ->
    getitem_key sns_record "Message" = Returned message ->
    py_json_loads ext message = Raised e ->
    decode_failure ext event.

(** The order [sorted] sorts by. *)
Definition timestamp_le (a b : datapoint) : Prop := Timestamp a <= Timestamp b.

(** The backend gave no sample: the call failed, or it returned no
    datapoint. *)
Definition yields_no_sample (o : outcome metric_response) : Prop :=
  match o with
  | Raised _ => True
  | Returned resp => default [] (Datapoints resp) = []
  end.

(** A decoded alarm name that does not mention the primary region label:
    missing ([None]), empty, or a string in which the label does not
    occur. *)
Definition not_primary_name (cfg : config) (alarm_name : pyval) : Prop :=
  alarm_name = PNone \/ alarm_name = PStr "" \/
  exists s, alarm_name = PStr s /\ ~ is_substring (PRIMARY_REGION_LABEL cfg) s.

(** The sample the handler reads for a region is present and healthy. *)
Definition healthy_sample (ext : externals) (region_label : string) : Prop :=
  exists v : Q,
    result (get_latest_region_health ext region_label) = Returned (Some v) /\
    (1 # 2 < v)%Q.

(** The calls of a trace to the two clients, in program order, without the
    log entries. *)
Definition calls (t : list effect) : list effect :=
  omap (fun ev => match ev with Log _ _ => None | _ => Some ev end) t.

(** The health gate of the handler: the new state selects the region whose
    health is read and the flag of the publish that follows. *)
Definition health_gate
    (cfg : config) (new_state : pyval) (region_label : string) (flag : bool) : Prop :=
  (eq_str new_state "ALARM" = true /\
   region_label = SECONDARY_REGION_LABEL cfg /\ flag = false) \/
  (eq_str new_state "ALARM" = false /\ eq_str new_state "OK" = true /\
   region_label = PRIMARY_REGION_LABEL cfg /\ flag = true).

(** The paths through [lambda_handler], each with the CloudWatch queries,
    the Route53 writes and the outcome of the run that takes it. *)
Inductive handler_path (cfg : config) (ext : externals) (event : pyval) :
  list metric_query -> list (string * change_batch) -> outcome unit -> Prop :=
| path_no_message msg :
    result (parse_sns_event ext event) = Returned msg ->
    truthy msg = false ->
    handler_path cfg ext event [] [] (Returned tt)
| path_not_object msg :
    result (parse_sns_event ext event) = Returned msg ->
    truthy msg = true ->
    py_get msg "AlarmName" = Raised AttributeError ->
    handler_path cfg ext event [] [] (Raised AttributeError)
| path_classifier_raises msg alarm_name e :
    result (parse_sns_event ext event) = Returned msg ->
    truthy msg = true ->
    py_get msg "AlarmName" = Returned alarm_name ->
    result (var_is_primary_alarm cfg alarm_name) = Raised e ->
    handler_path cfg ext event [] [] (Raised e)
| path_not_primary msg alarm_name :
    result (parse_sns_event ext event) = Returned msg ->
    truthy msg = true ->
    py_get msg "AlarmName" = Returned alarm_name ->
    result (var_is_primary_alarm cfg alarm_name) = Returned false ->
    handler_path cfg ext event [] [] (Returned tt)
| path_unhandled_state msg alarm_name new_state :
    result (parse_sns_event ext event) = Returned msg ->
    truthy msg = true ->
    py_get msg "AlarmName" = Returned alarm_name ->
    py_get msg "NewStateValue" = Returned new_state ->
    result (var_is_primary_alarm cfg alarm_name) = Returned true ->
    eq_str new_state "ALARM" = false ->
    eq_str new_state "OK" = false ->
    handler_path cfg ext event [] [] (Returned tt)
| path_gate_closed msg alarm_name new_state region_label flag :
    result (parse_sns_event ext event) = Returned msg ->
    truthy msg = true ->
    py_get msg "AlarmName" = Returned alarm_name ->
    py_get msg "NewStateValue" = Returned new_state ->
    result (var_is_primary_alarm cfg alarm_name) = Returned true ->
    health_gate cfg new_state region_label flag ->
    ~ healthy_sample ext region_label ->
    handler_path cfg ext event [region_health_query ext region_label] [] (Returned tt)
| path_gate_open msg alarm_name new_state region_label flag :
    result (parse_sns_event ext event) = Returned msg ->
    truthy msg = true ->
    py_get msg "AlarmName" = Returned alarm_name ->
    py_get msg "NewStateValue" = Returned new_state ->
    result (var_is_primary_alarm cfg alarm_name) = Returned true ->
    health_gate cfg new_state region_label flag ->
    healthy_sample ext region_label ->
    handler_path cfg ext event
      [region_health_query ext region_label]
      [(HOSTED_ZONE_ID cfg, failover_change_batch cfg flag)]
      match change_resource_record_sets ext (HOSTED_ZONE_ID cfg)
              (failover_change_batch cfg flag) with
      | Returned _ => Returned tt
      | Raised e => Raised e
      end.

(** The set identifiers track the role slots, as the specification words
    it: each role slot keeps its set identifier across the two publishes,
    and with the secondary region designated PRIMARY the primary set
    identifier is bound to the secondary endpoint and the secondary set
    identifier to the primary endpoint. *)
Definition set_ids_track_role_slots (cfg : config) : Prop :=
  set_id_of_role "PRIMARY" (failover_changes cfg false) =
    set_id_of_role "PRIMARY" (failover_changes cfg true) /\
  set_id_of_role "SECONDARY" (failover_changes cfg false) =
    set_id_of_role "SECONDARY" (failover_changes cfg true) /\
  endpoint_of_set_id (PRIMARY_SET_ID cfg) (failover_changes cfg false) =
    [(SECONDARY_ALB_ZONE_ID cfg, SECONDARY_ALB_DNS cfg)] /\
  endpoint_of_set_id (SECONDARY_SET_ID cfg) (failover_changes cfg false) =
    [(PRIMARY_ALB_ZONE_ID cfg, PRIMARY_ALB_DNS cfg)].

#[global] Instance Q_eq_dec : EqDecision Q.
Proof. solve_decision. Defined.

#[global] Instance datapoint_eq_dec : EqDecision datapoint.
Proof. solve_decision. Defined.

(** ** Example configuration and collaborators *)

Module Example.

Definition cfg : config :=
  {| HOSTED_ZONE_ID := "Z0HOSTED";
     RECORD_NAME := "www.example.com";
     PRIMARY_SET_ID := "east-set";
     SECONDARY_SET_ID := "west-set";
     PRIMARY_ALB_DNS := "east-alb.elb.amazonaws.com";
     PRIMARY_ALB_ZONE_ID := "ZEAST";
     SECONDARY_ALB_DNS := "west-alb.elb.amazonaws.com";
     SECONDARY_ALB_ZONE_ID := "ZWEST";
     PRIMARY_REGION_LABEL := "east";
     SECONDARY_REGION_LABEL := "west" |}.

(** The same configuration with a record name that has no dot. *)
Definition cfg_nodot : config :=
  {| HOSTED_ZONE_ID := "Z0HOSTED";
     RECORD_NAME := "localhost";
     PRIMARY_SET_ID := "east-set";
     SECONDARY_SET_ID := "west-set";
     PRIMARY_ALB_DNS := "east-alb.elb.amazonaws.com";
     PRIMARY_ALB_ZONE_ID := "ZEAST";
     SECONDARY_ALB_DNS := "west-alb.elb.amazonaws.com";
     SECONDARY_ALB_ZONE_ID := "ZWEST";
     PRIMARY_REGION_LABEL := "east";
     SECONDARY_REGION_LABEL := "west" |}.

Definition alarm_doc (alarm_name new_state : string) : pyval :=
  PDict [("AlarmName", PStr alarm_name); ("NewStateValue", PStr new_state)].

(** A decoder that knows four documents. *)
Definition loads (s : string) : option pyval :=
  if String.eqb s "east-alarm" then Some (alarm_doc "RegionDown-east-example.com" "ALARM")
  else if String.eqb s "east-ok" then Some (alarm_doc "RegionDown-east-example.com" "OK")
  else if String.eqb s "west-alarm" then Some (alarm_doc "RegionDown-west-example.com" "ALARM")
  else if String.eqb s "null" then Some PNone
  else None.

Definition sns_event (message : string) : pyval :=
  PDict [("Records", PList [PDict [("Sns", PDict [("Message", PStr message)])]])].

(** CloudWatch answers with the given datapoints for the region [west] and
    with [east_dps] for any other region. *)
Definition ext_with (west_dps east_dps : list datapoint) : externals :=
  {| utcnow := 1700000000;
     get_metric_statistics := fun q =>
       if String.eqb (DimensionRegion q) "west"
       then Returned {| Datapoints := Some west_dps |}
       else Returned {| Datapoints := Some east_dps |};
     change_resource_record_sets := fun _ _ => Returned "PENDING";
     json_loads := loads |}.

(** CloudWatch refuses every call. *)
Definition ext_down : externals :=
  {| utcnow := 1700000000;
     get_metric_statistics := fun _ => Raised (ClientError "Throttling");
     change_resource_record_sets := fun _ _ => Returned "PENDING";
     json_loads := loads |}.

Definition dp (ts : Z) (v : Q) : datapoint :=
  {| Timestamp := ts; Average := Some v |}.

End Example.

(** ** Further example documents *)

Module Cases.

(** A decoder that knows documents of other shapes. *)
Definition loads (s : string) : option pyval :=
  if String.eqb s "east-insufficient"
  then Some (Example.alarm_doc "RegionDown-east-example.com" "INSUFFICIENT_DATA")
  else if String.eqb s "east-alarm"
  then Some (Example.alarm_doc "RegionDown-east-example.com" "ALARM")
  else if String.eqb s "a-string" then Some (PStr "RegionDown-east-example.com")
  else if String.eqb s "empty-object" then Some (PDict [])
  else if String.eqb s "numeric-name"
  then Some (PDict [("AlarmName", PInt 7); ("NewStateValue", PStr "ALARM")])
  else None.

(** CloudWatch answers every query with [dps]; Route53 answers with
    [route53]. *)
Definition ext_with (dps : list datapoint) (route53 : outcome string) : externals :=
  {| utcnow := 1700000000;
     get_metric_statistics := fun _ => Returned {| Datapoints := Some dps |};
     change_resource_record_sets := fun _ _ => route53;
     json_loads := loads |}.

(** CloudWatch refuses every call. *)
Definition ext_down : externals :=
  {| utcnow := 1700000000;
     get_metric_statistics := fun _ => Raised (ClientError "Throttling");
     change_resource_record_sets := fun _ _ => Returned "PENDING";
     json_loads := loads |}.

(** A configuration whose primary label occurs in the secondary one. *)
Definition cfg_nested : config :=
  {| HOSTED_ZONE_ID := "Z0HOSTED";
     RECORD_NAME := "www.example.com";
     PRIMARY_SET_ID := "us-set";
     SECONDARY_SET_ID := "us-west-set";
     PRIMARY_ALB_DNS := "us-alb.elb.amazonaws.com";
     PRIMARY_ALB_ZONE_ID := "ZUS";
     SECONDARY_ALB_DNS := "us-west-alb.elb.amazonaws.com";
     SECONDARY_ALB_ZONE_ID := "ZUSWEST";
     PRIMARY_REGION_LABEL := "us";
     SECONDARY_REGION_LABEL := "us-west" |}.

(** An envelope with two records. *)
Definition sns_batch (first second : string) : pyval :=
  PDict [("Records",
          PList [PDict [("Sns", PDict [("Message", PStr first)])];
                 PDict [("Sns", PDict [("Message", PStr second)])]])].

End Cases.

(** ** Laws of the handler monad *)

Section MonadLaws.

Context {A B : Type}.

Lemma trace_bind (m : M A) (k : A -> M B) :
  trace (bind m k) =
  trace m ++ match result m with
             | Returned a => trace (k a)
             | Raised _ => []
             end.
Proof.
  destruct m as [t [a | e]]; unfold trace, result; simpl.
  - destruct (k a); reflexivity.
  - symmetry; apply app_nil_r.
Qed.

Lemma result_bind (m : M A) (k : A -> M B) :
  result (bind m k) =
  match result m with
  | Returned a => result (k a)
  | Raised e => Raised e
  end.
Proof.
  destruct m as [t [a | e]]; unfold result; simpl; [destruct (k a) |]; reflexivity.
Qed.

Lemma bind_returned (t : list effect) (a : A) (k : A -> M B) :
  bind (t, Returned a) k = (t ++ trace (k a), result (k a)).
Proof. unfold trace, result; simpl; destruct (k a); reflexivity. Qed.

Lemma bind_raised (t : list effect) (e : exn) (k : A -> M B) :
  bind (t, Raised e) k = (t, Raised e).
Proof. reflexivity. Qed.

End MonadLaws.

Lemma M_eta {A} (m : M A) : m = (trace m, result m).
Proof. destruct m; reflexivity. Qed.

Lemma publishes_app (t1 t2 : list effect) :
  publishes (t1 ++ t2) = publishes t1 ++ publishes t2.
Proof. apply omap_app. Qed.

Lemma health_queries_app (t1 t2 : list effect) :
  health_queries (t1 ++ t2) = health_queries t1 ++ health_queries t2.
Proof. apply omap_app. Qed.

(** ** Strings *)

Lemma append_nil (s : string) : "" +:+ s = s.
Proof. reflexivity. Qed.

Lemma append_cons (c : Ascii.ascii) (s t : string) :
  String c s +:+ t = String c (s +:+ t).
Proof. reflexivity. Qed.

Lemma prefix_spec (sub s : string) :
  String.prefix sub s = true <-> exists post, s = sub +:+ post.
Proof.
  revert s; induction sub as [| c sub IH]; intros s.
  - split; [intros _; exists s; reflexivity | intros _; destruct s; reflexivity].
  - destruct s as [| c' s]; simpl.
    + split; [discriminate | intros [post H]; rewrite append_cons in H; discriminate].
    + destruct (Ascii.ascii_dec c c') as [-> | Hne].
      * rewrite IH. split; intros [post H]; exists post;
          rewrite append_cons in *; congruence.
      * split; [discriminate | intros [post H]; rewrite append_cons in H; congruence].
Qed.

Lemma contains_spec (sub s : string) :
  contains sub s = true <-> is_substring sub s.
Proof.
  unfold is_substring. induction s as [| c s IH]; cbn [contains].
  - rewrite orb_false_r, prefix_spec. split.
    + intros [post H]. exists "", post. exact H.
    + intros (pre & post & H). destruct pre; [eauto |].
      rewrite append_cons in H; discriminate.
  - rewrite orb_true_iff, prefix_spec, IH. split.
    + intros [[post H] | (pre & post & H)].
      * exists "", post. exact H.
      * exists (String c pre), post. rewrite append_cons. congruence.
    + intros (pre & post & H). destruct pre as [| c' pre].
      * left. eauto.
      * right. exists pre, post. rewrite append_cons in H. congruence.
Qed.

Lemma contains_false_spec (sub s : string) :
  contains sub s = false <-> ~ is_substring sub s.
Proof.
  rewrite <- contains_spec. destruct (contains sub s); split; congruence.
Qed.

(** [s.split(c, 1)] has a second element exactly when [c] occurs in [s]. *)
Lemma split_once_second (c : Ascii.ascii) (s : string) :
  match split_once c s with
  | _ :: _ :: _ => mem_char c s = true
  | _ => mem_char c s = false
  end.
Proof.
  induction s as [| c' s IH]; simpl; [reflexivity |].
  destruct (Ascii.eqb c' c); simpl; [reflexivity |].
  destruct (split_once c s) as [| h [| x tl]]; simpl; exact IH.
Qed.

(** ** Record Publisher *)

Lemma failover_changes_true (cfg : config) :
  failover_changes cfg true =
  [ {| Action := "UPSERT";
       ResourceRecordSet :=
         {| Name := RECORD_NAME cfg; Type_ := "A";
            SetIdentifier := PRIMARY_SET_ID cfg; Failover := "PRIMARY"; TTL := 60;
            AliasTarget := {| HostedZoneId := PRIMARY_ALB_ZONE_ID cfg;
                              DNSName := PRIMARY_ALB_DNS cfg;
                              EvaluateTargetHealth := false |} |} |};
    {| Action := "UPSERT";
       ResourceRecordSet :=
         {| Name := RECORD_NAME cfg; Type_ := "A";
            SetIdentifier := SECONDARY_SET_ID cfg; Failover := "SECONDARY"; TTL := 60;
            AliasTarget := {| HostedZoneId := SECONDARY_ALB_ZONE_ID cfg;
                              DNSName := SECONDARY_ALB_DNS cfg;
                              EvaluateTargetHealth := false |} |} |} ].
Proof. reflexivity. Qed.

Lemma failover_changes_false (cfg : config) :
  failover_changes cfg false =
  [ {| Action := "UPSERT";
       ResourceRecordSet :=
         {| Name := RECORD_NAME cfg; Type_ := "A";
            SetIdentifier := SECONDARY_SET_ID cfg; Failover := "PRIMARY"; TTL := 60;
            AliasTarget := {| HostedZoneId := SECONDARY_ALB_ZONE_ID cfg;
                              DNSName := SECONDARY_ALB_DNS cfg;
                              EvaluateTargetHealth := false |} |} |};
    {| Action := "UPSERT";
       ResourceRecordSet :=
         {| Name := RECORD_NAME cfg; Type_ := "A";
            SetIdentifier := PRIMARY_SET_ID cfg; Failover := "SECONDARY"; TTL := 60;
            AliasTarget := {| HostedZoneId := PRIMARY_ALB_ZONE_ID cfg;
                              DNSName := PRIMARY_ALB_DNS cfg;
                              EvaluateTargetHealth := false |} |} |} ].
Proof. reflexivity. Qed.

(** The trace of a publish: one log line, the single Route53 call, and the
    second log line when the call returns. *)
Lemma upsert_failover_records_run (cfg : config) (ext : externals) (flag : bool) :
  upsert_failover_records cfg ext flag =
  match change_resource_record_sets ext (HOSTED_ZONE_ID cfg)
          (failover_change_batch cfg flag) with
  | Returned resp =>
      ([Log INFO "Applying Route53 ChangeResourceRecordSets with %s";
        Route53Call (HOSTED_ZONE_ID cfg) (failover_change_batch cfg flag);
        Log INFO "Route53 response: %s"], Returned resp)
  | Raised e =>
      ([Log INFO "Applying Route53 ChangeResourceRecordSets with %s";
        Route53Call (HOSTED_ZONE_ID cfg) (failover_change_batch cfg flag)], Raised e)
  end.
Proof.
  unfold upsert_failover_records, route53_change_resource_record_sets.
  destruct (change_resource_record_sets _ _ _); reflexivity.
Qed.

Lemma upsert_failover_records_publishes (cfg : config) (ext : externals) (flag : bool) :
  publishes (trace (upsert_failover_records cfg ext flag)) =
  [(HOSTED_ZONE_ID cfg, failover_change_batch cfg flag)].
Proof.
  rewrite upsert_failover_records_run.
  destruct (change_resource_record_sets _ _ _); reflexivity.
Qed.

Lemma upsert_failover_records_health_queries
    (cfg : config) (ext : externals) (flag : bool) :
  health_queries (trace (upsert_failover_records cfg ext flag)) = [].
Proof.
  rewrite upsert_failover_records_run.
  destruct (change_resource_record_sets _ _ _); reflexivity.
Qed.

(** What the publisher emits for the example configuration when the
    secondary region is designated PRIMARY: the entry tagged PRIMARY carries
    the set identifier [west-set], and [east-set] is still bound to the east
    endpoint. *)
Example failover_changes_example :
  set_id_of_role "PRIMARY" (failover_changes Example.cfg false) = ["west-set"]
  /\ set_id_of_role "PRIMARY" (failover_changes Example.cfg true) = ["east-set"]
  /\ endpoint_of_set_id "east-set" (failover_changes Example.cfg false) =
       [("ZEAST", "east-alb.elb.amazonaws.com")]
  /\ endpoint_of_set_id "west-set" (failover_changes Example.cfg false) =
       [("ZWEST", "west-alb.elb.amazonaws.com")].
Proof. repeat split; reflexivity. Qed.

(** C1, counterexample: for the example configuration the set identifiers
    do not stay with the role slots. *)
Lemma set_ids_track_role_slots_counterexample :
  ~ set_ids_track_role_slots Example.cfg.
Proof.
  intros (H & _). vm_compute in H. discriminate H.
Qed.

(** C1, amended: when a publish designates the secondary region PRIMARY,
    the entry tagged PRIMARY carries the secondary set identifier and the
    secondary endpoint, and the entry tagged SECONDARY carries the primary
    set identifier and the primary endpoint; when it designates the primary
    region PRIMARY, the entry tagged PRIMARY carries the primary set
    identifier and the primary endpoint, and the entry tagged SECONDARY the
    secondary ones.  For either flag every entry binds a set identifier to
    its own configured endpoint, and its role tag is the one the flag gives
    to that pair: the set identifiers stay with the endpoints and the role
    tags move between the two pairs. *)
Theorem swap_moves_role_tags (cfg : config) :
  set_id_of_role "PRIMARY" (failover_changes cfg false) = [SECONDARY_SET_ID cfg] /\
  endpoint_of_role "PRIMARY" (failover_changes cfg false) =
    [(SECONDARY_ALB_ZONE_ID cfg, SECONDARY_ALB_DNS cfg)] /\
  set_id_of_role "SECONDARY" (failover_changes cfg false) = [PRIMARY_SET_ID cfg] /\
  endpoint_of_role "SECONDARY" (failover_changes cfg false) =
    [(PRIMARY_ALB_ZONE_ID cfg, PRIMARY_ALB_DNS cfg)] /\
  set_id_of_role "PRIMARY" (failover_changes cfg true) = [PRIMARY_SET_ID cfg] /\
  endpoint_of_role "PRIMARY" (failover_changes cfg true) =
    [(PRIMARY_ALB_ZONE_ID cfg, PRIMARY_ALB_DNS cfg)] /\
  set_id_of_role "SECONDARY" (failover_changes cfg true) = [SECONDARY_SET_ID cfg] /\
  endpoint_of_role "SECONDARY" (failover_changes cfg true) =
    [(SECONDARY_ALB_ZONE_ID cfg, SECONDARY_ALB_DNS cfg)] /\
  forall (flag : bool) (c : change),
    c ∈ failover_changes cfg flag ->
    let r := ResourceRecordSet c in
    (SetIdentifier r = PRIMARY_SET_ID cfg /\
     HostedZoneId (AliasTarget r) = PRIMARY_ALB_ZONE_ID cfg /\
     DNSName (AliasTarget r) = PRIMARY_ALB_DNS cfg /\
     Failover r = if flag then "PRIMARY" else "SECONDARY") \/
    (SetIdentifier r = SECONDARY_SET_ID cfg /\
     HostedZoneId (AliasTarget r) = SECONDARY_ALB_ZONE_ID cfg /\
     DNSName (AliasTarget r) = SECONDARY_ALB_DNS cfg /\
     Failover r = if flag then "SECONDARY" else "PRIMARY").
Proof.
  repeat split; try reflexivity.
  intros flag c Hc.
  destruct flag; [rewrite failover_changes_true in Hc | rewrite failover_changes_false in Hc];
    repeat (apply elem_of_cons in Hc as [-> | Hc]); try (apply elem_of_nil in Hc as []);
    simpl; auto 10.
Qed.

(** C1, witness of the amended statement on the example configuration:
    the placement of the two pairs under either flag, and the tag of every
    entry of either batch. *)
Lemma swap_moves_role_tags_witness :
  set_id_of_role "PRIMARY" (failover_changes Example.cfg false) = ["west-set"] /\
  endpoint_of_role "PRIMARY" (failover_changes Example.cfg false) =
    [("ZWEST", "west-alb.elb.amazonaws.com")] /\
  set_id_of_role "PRIMARY" (failover_changes Example.cfg true) = ["east-set"] /\
  endpoint_of_role "PRIMARY" (failover_changes Example.cfg true) =
    [("ZEAST", "east-alb.elb.amazonaws.com")] /\
  forall (flag : bool) (c : change),
    c ∈ failover_changes Example.cfg flag ->
    (SetIdentifier (ResourceRecordSet c) = "east-set" /\
     HostedZoneId (AliasTarget (ResourceRecordSet c)) = "ZEAST" /\
     DNSName (AliasTarget (ResourceRecordSet c)) = "east-alb.elb.amazonaws.com" /\
     Failover (ResourceRecordSet c) = if flag then "PRIMARY" else "SECONDARY") \/
    (SetIdentifier (ResourceRecordSet c) = "west-set" /\
     HostedZoneId (AliasTarget (ResourceRecordSet c)) = "ZWEST" /\
     DNSName (AliasTarget (ResourceRecordSet c)) = "west-alb.elb.amazonaws.com" /\
     Failover (ResourceRecordSet c) = if flag then "SECONDARY" else "PRIMARY").
Proof.
  destruct (swap_moves_role_tags Example.cfg)
    as (H1 & H2 & _ & _ & H5 & H6 & _ & _ & H9).
  split; [exact H1 |]. split; [exact H2 |].
  split; [exact H5 |]. split; [exact H6 |].
  intros flag c Hc. exact (H9 flag c Hc).
Defined.

(** C9: for either value of the flag a publish makes exactly one Route53
    call, whose batch holds exactly two UPSERT entries for the configured
    record name with type A, the first tagged PRIMARY and the second
    SECONDARY, each with TTL 60 and target health evaluation disabled. *)
Theorem publish_batch_shape (cfg : config) (ext : externals) (flag : bool) :
  publishes (trace (upsert_failover_records cfg ext flag)) =
    [(HOSTED_ZONE_ID cfg, failover_change_batch cfg flag)] /\
  exists c1 c2 : change,
    Changes (failover_change_batch cfg flag) = [c1; c2] /\
    Failover (ResourceRecordSet c1) = "PRIMARY" /\
    Failover (ResourceRecordSet c2) = "SECONDARY" /\
    Forall (fun c =>
              Action c = "UPSERT" /\
              Name (ResourceRecordSet c) = RECORD_NAME cfg /\
              Type_ (ResourceRecordSet c) = "A" /\
              TTL (ResourceRecordSet c) = 60 /\
              EvaluateTargetHealth (AliasTarget (ResourceRecordSet c)) = false)
           [c1; c2].
Proof.
  split; [apply upsert_failover_records_publishes |].
  destruct flag; simpl;
    [rewrite failover_changes_true | rewrite failover_changes_false];
    eexists _, _; (split; [reflexivity |]);
    repeat split; repeat constructor.
Qed.

Lemma apply_batch_failover
    (cfg : config) (flag : bool)
    (zone : gmap (string * string * string) resource_record_set) (i : string * string * string) :
  apply_batch zone (failover_change_batch cfg flag) !! i =
  match failover_changes cfg flag with
  | [c1; c2] =>
      if decide (rrset_key (ResourceRecordSet c2) = i) then Some (ResourceRecordSet c2)
      else if decide (rrset_key (ResourceRecordSet c1) = i) then Some (ResourceRecordSet c1)
      else zone !! i
  | _ => None
  end.
Proof.
  destruct flag; unfold apply_batch, apply_change; simpl;
    rewrite !lookup_insert; reflexivity.
Qed.

(** C10: when Route53 accepts the writes, publishing with the flag true,
    then false, then true leaves the hosted zone exactly as one publish
    with the flag true leaves it; the last batch written is the batch of
    the first publish, with the same endpoint for each role. *)
Theorem publish_round_trip
    (cfg : config) (ext : externals)
    (zone : gmap (string * string * string) resource_record_set) (r1 r2 : string)
    (Haccept_true :
       change_resource_record_sets ext (HOSTED_ZONE_ID cfg)
         (failover_change_batch cfg true) = Returned r1)
    (Haccept_false :
       change_resource_record_sets ext (HOSTED_ZONE_ID cfg)
         (failover_change_batch cfg false) = Returned r2) :
  let initial := upsert_failover_records cfg ext true in
  let final :=
    do _ <- upsert_failover_records cfg ext true ;
    do _ <- upsert_failover_records cfg ext false ;
    upsert_failover_records cfg ext true in
  result final = Returned r1 /\
  snd <$> publishes (trace final) =
    [failover_change_batch cfg true; failover_change_batch cfg false;
     failover_change_batch cfg true] /\
  last (publishes (trace final)) = last (publishes (trace initial)) /\
  (forall role b, last (publishes (trace final)) = Some (HOSTED_ZONE_ID cfg, b) ->
     endpoint_of_role role (Changes b) =
     endpoint_of_role role (failover_changes cfg true)) /\
  zone_after zone (trace final) = zone_after zone (trace initial).
Proof.
  intros initial final. subst initial final.
  rewrite !upsert_failover_records_run, Haccept_true, Haccept_false.
  cbn [bind trace result fst snd app].
  split; [reflexivity |]. split; [reflexivity |]. split; [reflexivity |].
  split.
  - intros role b Hb. cbn in Hb. injection Hb as <-. reflexivity.
  - unfold zone_after. apply map_eq. intros i.
    change (foldl apply_batch zone
              [failover_change_batch cfg true; failover_change_batch cfg false;
               failover_change_batch cfg true] !! i =
            foldl apply_batch zone [failover_change_batch cfg true] !! i).
    cbn [foldl].
    rewrite !apply_batch_failover, failover_changes_true, failover_changes_false.
    unfold rrset_key; simpl.
    repeat case_decide; try reflexivity; congruence.
Qed.

(** C10, witness: the example Route53 accepts every batch. *)
Lemma publish_round_trip_witness :
  zone_after ∅
    (trace (do _ <- upsert_failover_records Example.cfg Example.ext_down true ;
            do _ <- upsert_failover_records Example.cfg Example.ext_down false ;
            upsert_failover_records Example.cfg Example.ext_down true)) =
  zone_after ∅ (trace (upsert_failover_records Example.cfg Example.ext_down true)).
Proof.
  apply (publish_round_trip Example.cfg Example.ext_down ∅ "PENDING" "PENDING");
    reflexivity.
Defined.

(** ** Health Oracle *)

Lemma elem_of_insert_by_timestamp (d x : datapoint) (l : list datapoint) :
  x ∈ insert_by_timestamp d l <-> x = d \/ x ∈ l.
Proof.
  induction l as [| y l IH]; simpl.
  - rewrite list_elem_of_singleton, elem_of_nil. tauto.
  - destruct (Timestamp d <=? Timestamp y).
    + rewrite elem_of_cons. reflexivity.
    + rewrite !elem_of_cons, IH. tauto.
Qed.

Lemma elem_of_sorted_by_timestamp (x : datapoint) (l : list datapoint) :
  x ∈ sorted_by_timestamp l <-> x ∈ l.
Proof.
  induction l as [| d l IH]; simpl; [reflexivity |].
  rewrite elem_of_insert_by_timestamp, elem_of_cons, IH. reflexivity.
Qed.

Lemma insert_by_timestamp_perm (d : datapoint) (l : list datapoint) :
  insert_by_timestamp d l ≡ₚ d :: l.
Proof.
  induction l as [| x l IH]; simpl; [reflexivity |].
  destruct (Timestamp d <=? Timestamp x); [reflexivity |].
  rewrite IH. apply Permutation_swap.
Qed.

(** [sorted] rearranges its argument, *)
Lemma sorted_by_timestamp_perm (l : list datapoint) :
  sorted_by_timestamp l ≡ₚ l.
Proof.
  induction l as [| d l IH]; simpl; [reflexivity |].
  rewrite insert_by_timestamp_perm, IH. reflexivity.
Qed.

Lemma insert_by_timestamp_sorted (d : datapoint) (l : list datapoint) :
  Sorted timestamp_le l -> Sorted timestamp_le (insert_by_timestamp d l).
Proof.
  induction 1 as [| x l Hl IH Hhd]; simpl.
  - repeat constructor.
  - destruct (Z.leb_spec (Timestamp d) (Timestamp x)) as [Hle | Hlt].
    + repeat constructor; assumption.
    + constructor; [exact IH |].
      destruct Hhd as [| y l Hxy]; simpl.
      * constructor. unfold timestamp_le. lia.
      * destruct (Timestamp d <=? Timestamp y); constructor;
          unfold timestamp_le in *; lia.
Qed.

(** in ascending order of timestamp. *)
Lemma sorted_by_timestamp_sorted (l : list datapoint) :
  Sorted timestamp_le (sorted_by_timestamp l).
Proof.
  induction l as [| d l IH]; simpl; [constructor |].
  apply insert_by_timestamp_sorted, IH.
Qed.

Lemma insert_by_timestamp_filter (t : Z) (d : datapoint) (l : list datapoint) :
  filter (fun x => Timestamp x = t) (insert_by_timestamp d l) =
  filter (fun x => Timestamp x = t) (d :: l).
Proof.
  induction l as [| x l IH]; simpl; [reflexivity |].
  destruct (Z.leb_spec (Timestamp d) (Timestamp x)) as [Hle | Hlt]; [reflexivity |].
  rewrite (filter_cons _ x), IH, !filter_cons.
  repeat case_decide; try reflexivity; lia.
Qed.

(** The sort is stable: datapoints with the same timestamp keep their order. *)
Lemma sorted_by_timestamp_stable (t : Z) (l : list datapoint) :
  filter (fun x => Timestamp x = t) (sorted_by_timestamp l) =
  filter (fun x => Timestamp x = t) l.
Proof.
  induction l as [| d l IH]; simpl; [reflexivity |].
  rewrite insert_by_timestamp_filter, !filter_cons, IH. reflexivity.
Qed.

(** Inserting [d] either puts it last, above every element, or keeps the
    last element, with some element at or above [d]. *)
Lemma last_insert_by_timestamp (d : datapoint) (l : list datapoint) :
  (last (insert_by_timestamp d l) = Some d /\
   forall x, x ∈ l -> Timestamp x < Timestamp d) \/
  (exists m x, last l = Some m /\ last (insert_by_timestamp d l) = Some m /\
               x ∈ l /\ Timestamp d <= Timestamp x).
Proof.
  induction l as [| y l IH]; simpl.
  - left. split; [reflexivity |]. intros x Hx. apply elem_of_nil in Hx as [].
  - destruct (Z.leb_spec (Timestamp d) (Timestamp y)) as [Hle | Hlt].
    + right. destruct (last (y :: l)) as [m |] eqn:Hm.
      * exists m, y. rewrite last_cons_cons, Hm.
        repeat split; [apply list_elem_of_here | exact Hle].
      * apply last_None in Hm. discriminate Hm.
    + destruct IH as [[Hlast Hall] | (m & x & Hm & Hlast & Hx & Hle)].
      * left. split.
        -- destruct (insert_by_timestamp d l) eqn:E; [discriminate Hlast |].
           rewrite last_cons_cons. exact Hlast.
        -- intros x Hx. apply elem_of_cons in Hx as [-> | Hx]; [lia | auto].
      * right. exists m, x. split; [| split; [| split]].
        -- destruct l; [discriminate Hm |]. rewrite last_cons_cons. exact Hm.
        -- destruct (insert_by_timestamp d l) eqn:E; [discriminate Hlast |].
           rewrite last_cons_cons. exact Hlast.
        -- apply list_elem_of_further. exact Hx.
        -- exact Hle.
Qed.

(** [sorted(datapoints, key=...)[-1]] is a datapoint of the list whose
    timestamp no other exceeds. *)
Lemma last_sorted_by_timestamp (l : list datapoint) :
  l <> [] ->
  exists latest, last (sorted_by_timestamp l) = Some latest /\
                 latest ∈ l /\
                 forall d, d ∈ l -> Timestamp d <= Timestamp latest.
Proof.
  induction l as [| d l IH]; [congruence | intros _]. simpl.
  destruct (last_insert_by_timestamp d (sorted_by_timestamp l))
    as [[Hlast Hall] | (m & x & Hm & Hlast & Hx & Hle)].
  - exists d. split; [exact Hlast |]. split; [apply list_elem_of_here |].
    intros y Hy. apply elem_of_cons in Hy as [-> | Hy]; [lia |].
    apply (proj2 (elem_of_sorted_by_timestamp _ _)), Hall in Hy. lia.
  - destruct l as [| d' l']; [discriminate Hm |].
    destruct IH as (latest & Hlatest & Hin & Hmax); [congruence |].
    rewrite Hm in Hlatest. injection Hlatest as ->.
    exists latest. split; [exact Hlast |]. split; [apply list_elem_of_further; exact Hin |].
    intros y Hy. apply elem_of_cons in Hy as [-> | Hy]; [| auto].
    apply (proj1 (elem_of_sorted_by_timestamp _ _)), Hmax in Hx. lia.
Qed.

(** The run of the oracle, by the answer of the backend. *)
Lemma get_latest_region_health_run (ext : externals) (region_label : string) :
  get_latest_region_health ext region_label =
  let q := region_health_query ext region_label in
  match get_metric_statistics ext q with
  | Raised e =>
      ([CloudWatchCall q; Log EXCEPTION "Failed to get metric for %s: %s"],
       Returned None)
  | Returned resp =>
      ([CloudWatchCall q],
       Returned (latest ← last (sorted_by_timestamp (default [] (Datapoints resp)));
                 Average latest))
  end.
Proof.
  unfold get_latest_region_health, cloudwatch_get_metric_statistics.
  cbv zeta.
  destruct (get_metric_statistics ext _) as [resp | e]; [| reflexivity].
  cbn [emit lift bind app].
  destruct (default [] (Datapoints resp)) as [| d l] eqn:Hdps; [reflexivity |].
  destruct (last_sorted_by_timestamp (d :: l)) as (latest & Hlast & _); [congruence |].
  rewrite Hlast. reflexivity.
Qed.

Lemma get_latest_region_health_returns (ext : externals) (region_label : string) :
  exists v, result (get_latest_region_health ext region_label) = Returned v.
Proof.
  rewrite get_latest_region_health_run. cbv zeta.
  destruct (get_metric_statistics ext _); eexists; reflexivity.
Qed.

Lemma get_latest_region_health_publishes (ext : externals) (region_label : string) :
  publishes (trace (get_latest_region_health ext region_label)) = [].
Proof.
  rewrite get_latest_region_health_run. cbv zeta.
  destruct (get_metric_statistics ext _); reflexivity.
Qed.

Lemma get_latest_region_health_queries (ext : externals) (region_label : string) :
  health_queries (trace (get_latest_region_health ext region_label)) =
  [region_health_query ext region_label].
Proof.
  rewrite get_latest_region_health_run. cbv zeta.
  destruct (get_metric_statistics ext _); reflexivity.
Qed.

(** C6: the oracle never raises; it returns [None] whenever the query fails
    or yields no datapoint; a failed query is followed by the exception log
    entry and nothing else. *)
Theorem get_latest_region_health_absent (ext : externals) (region_label : string) :
  let q := region_health_query ext region_label in
  (exists v, result (get_latest_region_health ext region_label) = Returned v) /\
  (yields_no_sample (get_metric_statistics ext q) ->
   result (get_latest_region_health ext region_label) = Returned None) /\
  (forall e, get_metric_statistics ext q = Raised e ->
   get_latest_region_health ext region_label =
   ([CloudWatchCall q; Log EXCEPTION "Failed to get metric for %s: %s"],
    Returned None)).
Proof.
  intros q. split; [apply get_latest_region_health_returns |].
  rewrite get_latest_region_health_run. fold q. cbv zeta. split.
  - unfold yields_no_sample.
    destruct (get_metric_statistics ext q) as [resp | e]; [| reflexivity].
    intros ->. reflexivity.
  - intros e ->. reflexivity.
Qed.

(** C6, witness: a refused call and an empty answer both give [None]. *)
Lemma get_latest_region_health_absent_witness :
  Example.ext_down.(get_metric_statistics)
    (region_health_query Example.ext_down "west") = Raised (ClientError "Throttling") /\
  result (get_latest_region_health Example.ext_down "west") = Returned None /\
  result (get_latest_region_health (Example.ext_with [] []) "west") = Returned None /\
  get_latest_region_health Example.ext_down "west" =
    ([CloudWatchCall (region_health_query Example.ext_down "west");
      Log EXCEPTION "Failed to get metric for %s: %s"], Returned None).
Proof.
  split; [reflexivity |].
  split; [apply (get_latest_region_health_absent Example.ext_down "west"); exact I |].
  split; [apply (get_latest_region_health_absent (Example.ext_with [] []) "west");
          reflexivity |].
  apply (get_latest_region_health_absent Example.ext_down "west")
    with (e := ClientError "Throttling"); reflexivity.
Defined.

(** C7: for a non-empty list of datapoints the oracle returns the value of
    a datapoint of the list whose timestamp no other exceeds; a datapoint
    strictly later than all others is the one whose value is returned,
    whatever the values are. *)
Theorem get_latest_region_health_latest
    (ext : externals) (region_label : string) (dps : list datapoint)
    (Hresp : get_metric_statistics ext (region_health_query ext region_label) =
             Returned {| Datapoints := Some dps |})
    (Hne : dps <> []) :
  (exists latest,
     latest ∈ dps /\
     (forall d, d ∈ dps -> Timestamp d <= Timestamp latest) /\
     result (get_latest_region_health ext region_label) = Returned (Average latest)) /\
  (forall d,
     d ∈ dps ->
     (forall d', d' ∈ dps -> d' <> d -> Timestamp d' < Timestamp d) ->
     result (get_latest_region_health ext region_label) = Returned (Average d)).
Proof.
  rewrite get_latest_region_health_run. cbv zeta. rewrite Hresp.
  cbn [Datapoints default from_option id].
  destruct (last_sorted_by_timestamp dps Hne) as (latest & Hlast & Hin & Hmax).
  rewrite Hlast. cbn [mbind option_bind result snd]. split.
  - exists latest. auto.
  - intros d Hd Hstrict.
    destruct (decide (latest = d)) as [-> | Hdiff]; [reflexivity |].
    specialize (Hstrict _ Hin Hdiff). specialize (Hmax _ Hd). lia.
Qed.

(** C7, witness: the datapoint stamped 20 is the latest; its value 1/10 is
    returned although it is the smallest of the three. *)
Lemma get_latest_region_health_latest_witness :
  result (get_latest_region_health
            (Example.ext_with
               [Example.dp 20 (1 # 10); Example.dp 10 (9 # 10); Example.dp 15 (1 # 2)] [])
            "west") = Returned (Some (1 # 10)).
Proof.
  apply (proj2 (get_latest_region_health_latest
           (Example.ext_with
              [Example.dp 20 (1 # 10); Example.dp 10 (9 # 10); Example.dp 15 (1 # 2)] [])
           "west"
           [Example.dp 20 (1 # 10); Example.dp 10 (9 # 10); Example.dp 15 (1 # 2)]
           eq_refl ltac:(discriminate))
           (Example.dp 20 (1 # 10))).
  - apply list_elem_of_here.
  - intros d' Hd' Hne.
    repeat (apply elem_of_cons in Hd' as [-> | Hd']); try congruence; simpl; try lia.
    apply elem_of_nil in Hd' as [].
Defined.

(** ** Alarm Interpreter *)

Lemma var_is_primary_alarm_run (cfg : config) (alarm_name : pyval) :
  var_is_primary_alarm cfg alarm_name =
  if mem_char "." (RECORD_NAME cfg) then
    if truthy alarm_name
    then ([], py_in (PRIMARY_REGION_LABEL cfg) alarm_name)
    else ([], Returned false)
  else ([], Raised IndexError).
Proof.
  unfold var_is_primary_alarm.
  pose proof (split_once_second "." (RECORD_NAME cfg)) as Hdot.
  destruct (split_once "." (RECORD_NAME cfg)) as [| h [| x tl]];
    rewrite Hdot; try reflexivity.
  destruct (truthy alarm_name); [| reflexivity].
  destruct (py_in (PRIMARY_REGION_LABEL cfg) alarm_name) as [[|] |]; reflexivity.
Qed.

Lemma var_is_primary_alarm_trace (cfg : config) (alarm_name : pyval) :
  trace (var_is_primary_alarm cfg alarm_name) = [].
Proof.
  rewrite var_is_primary_alarm_run.
  destruct (mem_char "." (RECORD_NAME cfg)), (truthy alarm_name); reflexivity.
Qed.

Lemma var_is_primary_alarm_eq (cfg : config) (alarm_name : pyval) :
  var_is_primary_alarm cfg alarm_name =
  ([], result (var_is_primary_alarm cfg alarm_name)).
Proof.
  rewrite (M_eta (var_is_primary_alarm cfg alarm_name)) at 1.
  rewrite var_is_primary_alarm_trace. reflexivity.
Qed.

(** Either some step of the decoding fails and the sentinel is returned
    after the exception log entry, or the decoded document is returned. *)
Lemma parse_sns_event_cases (ext : externals) (event : pyval) :
  (decode_failure ext event /\
   parse_sns_event ext event =
   ([Log EXCEPTION "Failed to parse SNS event: %s"], Returned PNone)) \/
  (exists msg, parse_sns_event ext event = ([], Returned msg)).
Proof.
  unfold parse_sns_event, lift, ret.
  destruct (getitem_key event "Records") as [records | e] eqn:H1;
    cbn [bind app];
    [| left; split; [eapply missing_records; eauto | reflexivity]].
  destruct (getitem_0 records) as [record | e] eqn:H2;
    cbn [bind app];
    [| left; split; [eapply empty_batch; eauto | reflexivity]].
  destruct (getitem_key record "Sns") as [sns_record | e] eqn:H3;
    cbn [bind app];
    [| left; split; [eapply missing_sns; eauto | reflexivity]].
  destruct (getitem_key sns_record "Message") as [message | e] eqn:H4;
    cbn [bind app];
    [| left; split; [eapply missing_message; eauto | reflexivity]].
  destruct (py_json_loads ext message) as [msg | e] eqn:H5;
    cbn [bind app];
    [| left; split; [eapply malformed_payload; eauto | reflexivity]].
  right. exists msg. reflexivity.
Qed.

Lemma parse_sns_event_failure (ext : externals) (event : pyval) :
  decode_failure ext event ->
  parse_sns_event ext event =
  ([Log EXCEPTION "Failed to parse SNS event: %s"], Returned PNone).
Proof.
  unfold parse_sns_event, lift, ret.
  intros [e H1 | records e H1 H2 | records record e H1 H2 H3
         | records record sns_record e H1 H2 H3 H4
         | records record sns_record message e H1 H2 H3 H4 H5];
    rewrite H1; cbn [bind try_except app];
    try (rewrite H2; cbn [bind try_except app]);
    try (rewrite H3; cbn [bind try_except app]);
    try (rewrite H4; cbn [bind try_except app]);
    try (rewrite H5; cbn [bind try_except app]);
    reflexivity.
Qed.

Lemma parse_sns_event_returns (ext : externals) (event : pyval) :
  exists msg, result (parse_sns_event ext event) = Returned msg.
Proof.
  destruct (parse_sns_event_cases ext event) as [[_ ->] | [msg ->]]; eauto.
Qed.

Lemma parse_sns_event_no_calls (ext : externals) (event : pyval) :
  health_queries (trace (parse_sns_event ext event)) = [] /\
  publishes (trace (parse_sns_event ext event)) = [].
Proof.
  destruct (parse_sns_event_cases ext event) as [[_ ->] | [msg ->]]; split; reflexivity.
Qed.

(** ** Failover Decision Engine *)

Lemma trace_pair {A} (t : list effect) (r : outcome A) : trace (t, r) = t.
Proof. reflexivity. Qed.

Lemma result_pair {A} (t : list effect) (r : outcome A) : result (t, r) = r.
Proof. reflexivity. Qed.

Ltac expose :=
  unfold logger_info, logger_warning, logger_error, logger_exception,
    emit, ret, lift, raise.

(** Run the binds whose first computation is known. *)
Ltac run :=
  repeat (first [rewrite bind_returned | rewrite bind_raised];
          cbv beta; rewrite ?trace_pair, ?result_pair).

(** Count the calls of a trace built from the traces of the components. *)
Ltac count_calls :=
  rewrite ?publishes_app, ?health_queries_app,
    ?get_latest_region_health_publishes, ?get_latest_region_health_queries,
    ?upsert_failover_records_publishes, ?upsert_failover_records_health_queries;
  repeat match goal with
         | |- context [publishes (trace (parse_sns_event ?ext ?event))] =>
             rewrite (proj2 (parse_sns_event_no_calls ext event))
         | |- context [health_queries (trace (parse_sns_event ?ext ?event))] =>
             rewrite (proj1 (parse_sns_event_no_calls ext event))
         end.

(** The handler on the sentinel, and on any other falsy document. *)
Lemma lambda_handler_no_message (cfg : config) (ext : externals) (event msg : pyval) :
  result (parse_sns_event ext event) = Returned msg ->
  truthy msg = false ->
  lambda_handler cfg ext event =
  ([Log INFO "Event: %s"] ++ trace (parse_sns_event ext event) ++
   [Log ERROR "No parsed message, aborting"], Returned tt).
Proof.
  intros Hparse Hfalsy. unfold lambda_handler. expose.
  rewrite (M_eta (parse_sns_event ext event)), Hparse. run.
  rewrite Hfalsy. cbn [negb]. run. rewrite app_nil_r. reflexivity.
Qed.

(** C8: decoding never raises; when any step of it fails the sentinel is
    returned after the exception log entry, and the handler then logs the
    abort and returns, with no CloudWatch and no Route53 call; the handler
    stops in the same way on every event decoded to the sentinel. *)
Theorem decode_failure_is_noop (cfg : config) (ext : externals) (event : pyval) :
  (exists msg, result (parse_sns_event ext event) = Returned msg) /\
  (decode_failure ext event ->
   parse_sns_event ext event =
     ([Log EXCEPTION "Failed to parse SNS event: %s"], Returned PNone) /\
   lambda_handler cfg ext event =
     ([Log INFO "Event: %s"; Log EXCEPTION "Failed to parse SNS event: %s";
       Log ERROR "No parsed message, aborting"], Returned tt)) /\
  (result (parse_sns_event ext event) = Returned PNone ->
   result (lambda_handler cfg ext event) = Returned tt /\
   health_queries (trace (lambda_handler cfg ext event)) = [] /\
   publishes (trace (lambda_handler cfg ext event)) = []).
Proof.
  split; [apply parse_sns_event_returns |]. split.
  - intros Hfail. pose proof (parse_sns_event_failure ext event Hfail) as Hp.
    split; [exact Hp |].
    rewrite (lambda_handler_no_message cfg ext event PNone); rewrite ?Hp; reflexivity.
  - intros Hp.
    rewrite (lambda_handler_no_message cfg ext event PNone Hp eq_refl).
    rewrite trace_pair, result_pair. split; [reflexivity |].
    split; count_calls; reflexivity.
Qed.

(** C8, witness: an empty batch of records, and a payload that is not a
    JSON document. *)
Lemma decode_failure_is_noop_witness :
  lambda_handler Example.cfg Example.ext_down (PDict [("Records", PList [])]) =
    ([Log INFO "Event: %s"; Log EXCEPTION "Failed to parse SNS event: %s";
      Log ERROR "No parsed message, aborting"], Returned tt) /\
  lambda_handler Example.cfg Example.ext_down (Example.sns_event "{not json") =
    ([Log INFO "Event: %s"; Log EXCEPTION "Failed to parse SNS event: %s";
      Log ERROR "No parsed message, aborting"], Returned tt) /\
  publishes (trace (lambda_handler Example.cfg Example.ext_down (Example.sns_event "null")))
    = [].
Proof.
  split; [| split].
  - apply (decode_failure_is_noop Example.cfg Example.ext_down
             (PDict [("Records", PList [])])).
    apply (empty_batch _ _ (PList []) IndexError); reflexivity.
  - apply (decode_failure_is_noop Example.cfg Example.ext_down
             (Example.sns_event "{not json")).
    eapply (malformed_payload _ _ _ _ _ (PStr "{not json") JSONDecodeError);
      reflexivity.
  - apply (decode_failure_is_noop Example.cfg Example.ext_down (Example.sns_event "null")).
    reflexivity.
Defined.

Lemma var_is_primary_alarm_not_primary (cfg : config) (alarm_name : pyval) :
  not_primary_name cfg alarm_name ->
  var_is_primary_alarm cfg alarm_name =
  ([], if mem_char "." (RECORD_NAME cfg) then Returned false else Raised IndexError).
Proof.
  intros Hnot. rewrite var_is_primary_alarm_run.
  destruct (mem_char "." (RECORD_NAME cfg)); [| reflexivity].
  destruct Hnot as [-> | [-> | (s & -> & Hs)]]; try reflexivity.
  apply contains_false_spec in Hs.
  destruct (truthy (PStr s)); [| reflexivity].
  cbn [py_in]. rewrite Hs. reflexivity.
Qed.

(** The classifier on a string: with a dot in the record name it returns
    whether the name is non-empty and the label occurs in it. *)
Lemma var_is_primary_alarm_string (cfg : config) (s : string) :
  mem_char "." (RECORD_NAME cfg) = true ->
  var_is_primary_alarm cfg (PStr s) =
  ([], Returned (negb (String.eqb s "") && contains (PRIMARY_REGION_LABEL cfg) s)).
Proof.
  intros Hdot. rewrite var_is_primary_alarm_run, Hdot. cbn [truthy py_in].
  destruct (negb (String.eqb s "")); reflexivity.
Qed.

(** C4: when the decoded alarm name is missing, empty, or a string in which
    the primary region label does not occur, the handler makes no
    CloudWatch call and no Route53 call, and (the record name having a dot)
    returns normally.  On a string the classifier answers by substring
    containment: it returns [True] exactly when the name is not empty and
    the label occurs in it. *)
Theorem non_primary_alarm_ignored
    (cfg : config) (ext : externals) (event msg alarm_name : pyval)
    (Hparse : result (parse_sns_event ext event) = Returned msg)
    (Hname : py_get msg "AlarmName" = Returned alarm_name)
    (Hnot : not_primary_name cfg alarm_name) :
  health_queries (trace (lambda_handler cfg ext event)) = [] /\
  publishes (trace (lambda_handler cfg ext event)) = [] /\
  (mem_char "." (RECORD_NAME cfg) = true ->
   result (lambda_handler cfg ext event) = Returned tt) /\
  (forall s : string,
     mem_char "." (RECORD_NAME cfg) = true ->
     exists b, var_is_primary_alarm cfg (PStr s) = ([], Returned b) /\
               (b = true <-> s <> "" /\ is_substring (PRIMARY_REGION_LABEL cfg) s)).
Proof.
  assert (Hrun : exists t r,
             lambda_handler cfg ext event = ([Log INFO "Event: %s"] ++
               trace (parse_sns_event ext event) ++ t, r) /\
             health_queries t = [] /\ publishes t = [] /\
             (mem_char "." (RECORD_NAME cfg) = true -> r = Returned tt)).
  { destruct (truthy msg) eqn:Ht.
    - assert (exists st, py_get msg "NewStateValue" = Returned st) as [st Hst]
        by (destruct msg; try discriminate Hname; eexists; reflexivity).
      unfold lambda_handler. expose.
      rewrite (M_eta (parse_sns_event ext event)), Hparse. run.
      rewrite Ht. cbn [negb]. rewrite Hname. run. rewrite Hst. run.
      change (@nil effect, Returned tt) with (@ret unit tt).
      rewrite (var_is_primary_alarm_not_primary cfg alarm_name Hnot).
      destruct (mem_char "." (RECORD_NAME cfg)); run.
      + eexists _, _. split; [reflexivity |]. repeat split; reflexivity.
      + eexists _, _. split; [reflexivity |]. repeat split; try reflexivity.
        discriminate.
    - rewrite (lambda_handler_no_message cfg ext event msg Hparse Ht).
      eexists _, _. split; [reflexivity |]. repeat split; reflexivity. }
  destruct Hrun as (t & r & -> & Hq & Hp & Hr).
  rewrite trace_pair, result_pair.
  split; [count_calls; rewrite Hq; reflexivity |].
  split; [count_calls; rewrite Hp; reflexivity |].
  split; [exact Hr |].
  intros s Hdot.
  rewrite (var_is_primary_alarm_string cfg s Hdot).
  eexists. split; [reflexivity |].
  rewrite <- contains_spec.
  destruct (String.eqb_spec s "") as [-> | Hs]; cbn [negb andb].
  - split; [discriminate | intros [[] _]; reflexivity].
  - tauto.
Qed.

(** C4, witness: an alarm of the west region under the example
    configuration, whose primary label is [east]. *)
Lemma non_primary_alarm_ignored_witness :
  health_queries
    (trace (lambda_handler Example.cfg Example.ext_down (Example.sns_event "west-alarm")))
    = [] /\
  publishes
    (trace (lambda_handler Example.cfg Example.ext_down (Example.sns_event "west-alarm")))
    = [] /\
  result (lambda_handler Example.cfg Example.ext_down (Example.sns_event "west-alarm"))
    = Returned tt /\
  exists b,
    var_is_primary_alarm Example.cfg (PStr "RegionDown-east-example.com") =
      ([], Returned b) /\
    (b = true <->
     "RegionDown-east-example.com" <> "" /\
     is_substring "east" "RegionDown-east-example.com").
Proof.
  destruct (non_primary_alarm_ignored Example.cfg Example.ext_down
              (Example.sns_event "west-alarm")
              (Example.alarm_doc "RegionDown-west-example.com" "ALARM")
              (PStr "RegionDown-west-example.com") eq_refl eq_refl)
    as (Hq & Hp & Hr & Hcls).
  - right. right. exists "RegionDown-west-example.com". split; [reflexivity |].
    apply contains_false_spec. reflexivity.
  - split; [exact Hq |]. split; [exact Hp |]. split; [apply Hr; reflexivity |].
    apply (Hcls "RegionDown-east-example.com"). reflexivity.
Defined.

(** C5: when the configured record name has no dot, the classifier raises
    [IndexError] for every alarm name, so the handler raises on every
    decoded document it does not discard as empty ([IndexError] when the
    document is a dict), before any CloudWatch or Route53 call. *)
Theorem record_name_without_dot
    (cfg : config) (Hnodot : mem_char "." (RECORD_NAME cfg) = false) :
  (forall alarm_name : pyval,
     var_is_primary_alarm cfg alarm_name = ([], Raised IndexError)) /\
  (forall (ext : externals) (event msg : pyval),
     result (parse_sns_event ext event) = Returned msg ->
     truthy msg = true ->
     (exists e, result (lambda_handler cfg ext event) = Raised e) /\
     (forall d, msg = PDict d ->
                result (lambda_handler cfg ext event) = Raised IndexError) /\
     health_queries (trace (lambda_handler cfg ext event)) = [] /\
     publishes (trace (lambda_handler cfg ext event)) = []).
Proof.
  assert (Hcls : forall alarm_name : pyval,
             var_is_primary_alarm cfg alarm_name = ([], Raised IndexError)).
  { intros alarm_name. rewrite var_is_primary_alarm_run, Hnodot. reflexivity. }
  split; [exact Hcls |].
  intros ext event msg Hparse Ht.
  assert (Hrun : exists t e,
             lambda_handler cfg ext event = ([Log INFO "Event: %s"] ++
               trace (parse_sns_event ext event) ++ t, Raised e) /\
             health_queries t = [] /\ publishes t = [] /\
             (forall d, msg = PDict d -> e = IndexError)).
  { unfold lambda_handler. expose.
    rewrite (M_eta (parse_sns_event ext event)), Hparse. run.
    rewrite Ht. cbn [negb].
    destruct msg as [| b | z | q | s | l | d]; cbn [py_get]; run;
      try (eexists _, _; split; [reflexivity |]; repeat split; try reflexivity;
           intros d Hd; discriminate Hd).
    rewrite Hcls. run.
    eexists _, _. split; [reflexivity |]. repeat split; reflexivity. }
  destruct Hrun as (t & e & -> & Hq & Hp & He).
  rewrite trace_pair, result_pair.
  split; [eauto |]. split; [intros d Hd; f_equal; eauto |].
  split; count_calls; [rewrite Hq | rewrite Hp]; reflexivity.
Qed.

(** C5, witness: with the record name [localhost] the alarm of the primary
    region raises [IndexError] and nothing is queried or published. *)
Lemma record_name_without_dot_witness :
  var_is_primary_alarm Example.cfg_nodot (PStr "RegionDown-east-example.com") =
    ([], Raised IndexError) /\
  result (lambda_handler Example.cfg_nodot Example.ext_down (Example.sns_event "east-alarm"))
    = Raised IndexError /\
  publishes
    (trace (lambda_handler Example.cfg_nodot Example.ext_down
              (Example.sns_event "east-alarm"))) = [].
Proof.
  destruct (record_name_without_dot Example.cfg_nodot eq_refl) as [Hcls Hrun].
  split; [apply Hcls |].
  destruct (Hrun Example.ext_down (Example.sns_event "east-alarm")
              (Example.alarm_doc "RegionDown-east-example.com" "ALARM")
              eq_refl eq_refl) as (_ & Hidx & _ & Hp).
  split; [eapply Hidx; reflexivity | exact Hp].
Defined.

Lemma py_get_str_truthy (msg : pyval) (k s : string) :
  py_get msg k = Returned (PStr s) -> truthy msg = true.
Proof.
  destruct msg as [| | | | | | d]; try discriminate.
  destruct d; [discriminate | reflexivity].
Qed.

(** [h <= 0.5] fails exactly when [h] is strictly above one half. *)
Lemma le_half_false (h : Q) : le_half h = false <-> (1 # 2 < h)%Q.
Proof.
  unfold le_half. split.
  - intros Hle. apply Qnot_le_lt. intros H. apply Qle_bool_iff in H. congruence.
  - intros Hlt. destruct (Qle_bool h (1 # 2)) eqn:E; [| reflexivity].
    apply Qle_bool_iff in E. apply Qlt_not_le in Hlt. contradiction.
Qed.

(** C2: on an event classified as the primary alarm with new state ALARM
    the handler queries the health of the secondary region once; the
    publish designating the secondary region PRIMARY occurs if and only if
    the sample is present and strictly greater than one half, and it is then
    the only publish; otherwise nothing is published and the handler
    returns. *)
Theorem primary_alarm_failover
    (cfg : config) (ext : externals) (event msg alarm_name : pyval)
    (Hparse : result (parse_sns_event ext event) = Returned msg)
    (Hname : py_get msg "AlarmName" = Returned alarm_name)
    (Hstate : py_get msg "NewStateValue" = Returned (PStr "ALARM"))
    (Hprimary : result (var_is_primary_alarm cfg alarm_name) = Returned true) :
  let run := lambda_handler cfg ext event in
  let publish := (HOSTED_ZONE_ID cfg, failover_change_batch cfg false) in
  let healthy := healthy_sample ext (SECONDARY_REGION_LABEL cfg) in
  health_queries (trace run) = [region_health_query ext (SECONDARY_REGION_LABEL cfg)] /\
  (publish ∈ publishes (trace run) <-> healthy) /\
  (healthy -> publishes (trace run) = [publish]) /\
  (~ healthy -> publishes (trace run) = [] /\ result run = Returned tt).
Proof.
  intros run0 publish healthy. subst run0 publish healthy. unfold healthy_sample.
  pose proof (py_get_str_truthy _ _ _ Hstate) as Ht.
  destruct (get_latest_region_health_returns ext (SECONDARY_REGION_LABEL cfg)) as [v Hv].
  rewrite Hv.
  assert (Hrun : exists t,
    lambda_handler cfg ext event =
      ([Log INFO "Event: %s"] ++ trace (parse_sns_event ext event) ++
       [Log INFO "Alarm %s changed to %s"] ++ [] ++ [Log INFO "Event for primary alarm"] ++
       trace (get_latest_region_health ext (SECONDARY_REGION_LABEL cfg)) ++
       [Log INFO "Secondary region latest health datapoint: %s"] ++ t,
       match v with
       | Some h => if le_half h then Returned tt
                   else match result (upsert_failover_records cfg ext false) with
                        | Returned _ => Returned tt
                        | Raised e => Raised e
                        end
       | None => Returned tt
       end) /\
    health_queries t = [] /\
    publishes t = match v with
                  | Some h => if le_half h then []
                              else [(HOSTED_ZONE_ID cfg, failover_change_batch cfg false)]
                  | None => []
                  end).
  { unfold lambda_handler. expose.
    rewrite (M_eta (parse_sns_event ext event)), Hparse. run.
    rewrite Ht. cbn [negb]. rewrite Hname. run. rewrite Hstate. run.
    rewrite (var_is_primary_alarm_eq cfg alarm_name), Hprimary. run.
    cbn [eq_str String.eqb Ascii.eqb Bool.eqb].
    rewrite (M_eta (get_latest_region_health ext (SECONDARY_REGION_LABEL cfg))), Hv. run.
    destruct v as [h |]; [destruct (le_half h) |].
    - eexists. split; [reflexivity |]. split; reflexivity.
    - rewrite upsert_failover_records_run.
      destruct (change_resource_record_sets ext _ _); run;
        (eexists; split; [reflexivity |]; split; reflexivity).
    - eexists. split; [reflexivity |]. split; reflexivity. }
  destruct Hrun as (t & -> & Hq & Hp).
  rewrite trace_pair, result_pair. count_calls. rewrite Hq, Hp. cbn [publishes health_queries omap app].
  split; [reflexivity |].
  destruct v as [h |]; [destruct (le_half h) eqn:Hh |].
  - assert (Hno : ~ exists v, Returned (Some h) = Returned (Some v) /\ (1 # 2 < v)%Q).
    { intros (v & [= <-] & Hlt). apply le_half_false in Hlt. congruence. }
    split; [split; [intros Hin; apply elem_of_nil in Hin as [] | intros H; destruct (Hno H)] |].
    split; [intros H; destruct (Hno H) | intros _; split; reflexivity].
  - assert (Hyes : exists v, Returned (Some h) = Returned (Some v) /\ (1 # 2 < v)%Q).
    { exists h. split; [reflexivity | apply le_half_false; exact Hh]. }
    split; [split; [intros _; exact Hyes | intros _; apply list_elem_of_here] |].
    split; [intros _; reflexivity | intros H; destruct (H Hyes)].
  - assert (Hno : ~ exists v, @Returned (option Q) None = Returned (Some v) /\ (1 # 2 < v)%Q).
    { intros (v & [=] & _). }
    split; [split; [intros Hin; apply elem_of_nil in Hin as [] | intros H; destruct (Hno H)] |].
    split; [intros H; destruct (Hno H) | intros _; split; reflexivity].
Qed.

(** C2, witness: the east alarm fires; with the west sample at 0.51 the
    single publish makes west PRIMARY, with the sample at exactly 0.5
    nothing is published. *)
Lemma primary_alarm_failover_witness :
  publishes
    (trace (lambda_handler Example.cfg (Example.ext_with [Example.dp 10 (51 # 100)] [])
              (Example.sns_event "east-alarm"))) =
    [("Z0HOSTED", failover_change_batch Example.cfg false)] /\
  publishes
    (trace (lambda_handler Example.cfg (Example.ext_with [Example.dp 10 (1 # 2)] [])
              (Example.sns_event "east-alarm"))) = [].
Proof.
  split.
  - apply (primary_alarm_failover Example.cfg
             (Example.ext_with [Example.dp 10 (51 # 100)] [])
             (Example.sns_event "east-alarm")
             (Example.alarm_doc "RegionDown-east-example.com" "ALARM")
             (PStr "RegionDown-east-example.com") eq_refl eq_refl eq_refl eq_refl).
    exists (51 # 100). split; reflexivity.
  - apply (primary_alarm_failover Example.cfg
             (Example.ext_with [Example.dp 10 (1 # 2)] [])
             (Example.sns_event "east-alarm")
             (Example.alarm_doc "RegionDown-east-example.com" "ALARM")
             (PStr "RegionDown-east-example.com") eq_refl eq_refl eq_refl eq_refl).
    intros (v & Hv & Hlt). vm_compute in Hv. injection Hv as <-. discriminate Hlt.
Defined.

(** C3: on an event classified as the primary alarm with new state OK the
    handler queries the health of the primary region once; when the sample
    is absent or not strictly greater than one half nothing is published
    and the handler returns; otherwise the publish designating the primary
    region PRIMARY occurs, and it is the only publish. *)
Theorem primary_ok_revert
    (cfg : config) (ext : externals) (event msg alarm_name : pyval)
    (Hparse : result (parse_sns_event ext event) = Returned msg)
    (Hname : py_get msg "AlarmName" = Returned alarm_name)
    (Hstate : py_get msg "NewStateValue" = Returned (PStr "OK"))
    (Hprimary : result (var_is_primary_alarm cfg alarm_name) = Returned true) :
  let run := lambda_handler cfg ext event in
  let publish := (HOSTED_ZONE_ID cfg, failover_change_batch cfg true) in
  let healthy := healthy_sample ext (PRIMARY_REGION_LABEL cfg) in
  health_queries (trace run) = [region_health_query ext (PRIMARY_REGION_LABEL cfg)] /\
  (~ healthy -> publishes (trace run) = [] /\ result run = Returned tt) /\
  (healthy -> publishes (trace run) = [publish]).
Proof.
  intros run0 publish healthy. subst run0 publish healthy. unfold healthy_sample.
  pose proof (py_get_str_truthy _ _ _ Hstate) as Ht.
  destruct (get_latest_region_health_returns ext (PRIMARY_REGION_LABEL cfg)) as [v Hv].
  rewrite Hv.
  assert (Hrun : exists t,
    lambda_handler cfg ext event =
      ([Log INFO "Event: %s"] ++ trace (parse_sns_event ext event) ++
       [Log INFO "Alarm %s changed to %s"] ++ [] ++ [Log INFO "Event for primary alarm"] ++
       trace (get_latest_region_health ext (PRIMARY_REGION_LABEL cfg)) ++
       [Log INFO "Primary latest health datapoint: %s"] ++ t,
       match v with
       | Some h => if le_half h then Returned tt
                   else match result (upsert_failover_records cfg ext true) with
                        | Returned _ => Returned tt
                        | Raised e => Raised e
                        end
       | None => Returned tt
       end) /\
    health_queries t = [] /\
    publishes t = match v with
                  | Some h => if le_half h then []
                              else [(HOSTED_ZONE_ID cfg, failover_change_batch cfg true)]
                  | None => []
                  end).
  { unfold lambda_handler. expose.
    rewrite (M_eta (parse_sns_event ext event)), Hparse. run.
    rewrite Ht. cbn [negb]. rewrite Hname. run. rewrite Hstate. run.
    rewrite (var_is_primary_alarm_eq cfg alarm_name), Hprimary. run.
    cbn [eq_str String.eqb Ascii.eqb Bool.eqb].
    rewrite (M_eta (get_latest_region_health ext (PRIMARY_REGION_LABEL cfg))), Hv. run.
    destruct v as [h |]; [destruct (le_half h) |].
    - eexists. split; [reflexivity |]. split; reflexivity.
    - rewrite upsert_failover_records_run.
      destruct (change_resource_record_sets ext _ _); run;
        (eexists; split; [reflexivity |]; split; reflexivity).
    - eexists. split; [reflexivity |]. split; reflexivity. }
  destruct Hrun as (t & -> & Hq & Hp).
  rewrite trace_pair, result_pair. count_calls. rewrite Hq, Hp.
  cbn [publishes health_queries omap app].
  split; [reflexivity |].
  destruct v as [h |]; [destruct (le_half h) eqn:Hh |].
  - split; [intros _; split; reflexivity |].
    intros (v & [= <-] & Hlt). apply le_half_false in Hlt. congruence.
  - split; [| intros _; reflexivity].
    intros Hno. destruct Hno. exists h.
    split; [reflexivity | apply le_half_false; exact Hh].
  - split; [intros _; split; reflexivity |].
    intros (v & [=] & _).
Qed.

(** C3, witness: the east alarm clears; with the east sample at 0.9 the
    original mapping is published again, with no sample nothing is. *)
Lemma primary_ok_revert_witness :
  publishes
    (trace (lambda_handler Example.cfg (Example.ext_with [] [Example.dp 10 (9 # 10)])
              (Example.sns_event "east-ok"))) =
    [("Z0HOSTED", failover_change_batch Example.cfg true)] /\
  publishes
    (trace (lambda_handler Example.cfg (Example.ext_with [] [])
              (Example.sns_event "east-ok"))) = [].
Proof.
  split.
  - apply (primary_ok_revert Example.cfg
             (Example.ext_with [] [Example.dp 10 (9 # 10)])
             (Example.sns_event "east-ok")
             (Example.alarm_doc "RegionDown-east-example.com" "OK")
             (PStr "RegionDown-east-example.com") eq_refl eq_refl eq_refl eq_refl).
    exists (9 # 10). split; reflexivity.
  - apply (primary_ok_revert Example.cfg
             (Example.ext_with [] [])
             (Example.sns_event "east-ok")
             (Example.alarm_doc "RegionDown-east-example.com" "OK")
             (PStr "RegionDown-east-example.com") eq_refl eq_refl eq_refl eq_refl).
    intros (v & Hv & Hlt). vm_compute in Hv. discriminate Hv.
Defined.

(** ** The paths of the handler *)

Lemma py_get_cases (msg : pyval) (k : string) :
  (exists d, msg = PDict d) \/ py_get msg k = Raised AttributeError.
Proof. destruct msg; eauto. Qed.

Lemma healthy_sample_iff (ext : externals) (region_label : string) (v : option Q) :
  result (get_latest_region_health ext region_label) = Returned v ->
  healthy_sample ext region_label <->
  match v with Some h => le_half h = false | None => False end.
Proof.
  intros Hv. unfold healthy_sample. rewrite Hv. split.
  - intros (h & [= ->] & Hlt). apply le_half_false. exact Hlt.
  - destruct v as [h |]; [| intros []].
    intros Hh. exists h. split; [reflexivity | apply le_half_false; exact Hh].
Qed.

Ltac path_summary :=
  rewrite ?trace_pair, ?result_pair; count_calls; cbn [app];
  eexists _, _, _; split; [reflexivity |]; split; [reflexivity |];
  split; [reflexivity |].

Ltac gate_paths cfg ext region flag Hparse Ht Hname Hstate Hprimary Hgate :=
  let v := fresh "v" in
  let Hv := fresh "Hv" in
  let h := fresh "h" in
  let Hh := fresh "Hh" in
  let Hle := fresh "Hle" in
  let Hcall := fresh "Hcall" in
  let Hpath := fresh "Hpath" in
  destruct (get_latest_region_health_returns ext region) as [v Hv];
  rewrite (M_eta (get_latest_region_health ext region)), Hv; run;
  pose proof (healthy_sample_iff ext region v Hv) as Hh;
  destruct v as [h |]; [destruct (le_half h) eqn:Hle |];
  [ path_summary;
    eapply (path_gate_closed cfg ext _ _ _ _ region flag Hparse Ht Hname Hstate
              Hprimary Hgate); rewrite Hh; discriminate
  | pose proof (path_gate_open cfg ext _ _ _ _ region flag Hparse Ht Hname Hstate
                  Hprimary Hgate (proj2 Hh eq_refl)) as Hpath;
    rewrite upsert_failover_records_run;
    destruct (change_resource_record_sets ext (HOSTED_ZONE_ID cfg)
                (failover_change_batch cfg flag)) eqn:Hcall;
    run; path_summary; exact Hpath
  | path_summary;
    eapply (path_gate_closed cfg ext _ _ _ _ region flag Hparse Ht Hname Hstate
              Hprimary Hgate); rewrite Hh; tauto ].

(** Every run of the handler takes one of the paths. *)
Lemma lambda_handler_path (cfg : config) (ext : externals) (event : pyval) :
  exists qs ps r,
    health_queries (trace (lambda_handler cfg ext event)) = qs /\
    publishes (trace (lambda_handler cfg ext event)) = ps /\
    result (lambda_handler cfg ext event) = r /\
    handler_path cfg ext event qs ps r.
Proof.
  destruct (parse_sns_event_returns ext event) as [msg Hparse].
  destruct (truthy msg) eqn:Ht.
  2:{ rewrite (lambda_handler_no_message cfg ext event msg Hparse Ht).
      rewrite trace_pair, result_pair. count_calls.
      eexists _, _, _. repeat (split; [reflexivity |]).
      eapply path_no_message; eauto. }
  unfold lambda_handler. expose.
  rewrite (M_eta (parse_sns_event ext event)), Hparse. run.
  rewrite Ht. cbn [negb].
  destruct (py_get_cases msg "AlarmName") as [[d ->] | Hattr].
  2:{ rewrite Hattr. run. count_calls.
      eexists _, _, _. repeat (split; [reflexivity |]).
      eapply path_not_object; eauto. }
  assert (Hname : py_get (PDict d) "AlarmName" =
                  Returned (default PNone (dict_lookup d "AlarmName"))) by reflexivity.
  assert (Hstate : py_get (PDict d) "NewStateValue" =
                   Returned (default PNone (dict_lookup d "NewStateValue"))) by reflexivity.
  rewrite Hname. run. rewrite Hstate. run.
  set (alarm_name := default PNone (dict_lookup d "AlarmName")) in *.
  set (new_state := default PNone (dict_lookup d "NewStateValue")) in *.
  rewrite (var_is_primary_alarm_eq cfg alarm_name).
  destruct (result (var_is_primary_alarm cfg alarm_name)) as [[|] | e] eqn:Hprimary; run.
  - destruct (eq_str new_state "ALARM") eqn:Halarm;
      [| destruct (eq_str new_state "OK") eqn:Hok].
    + assert (Hgate : health_gate cfg new_state (SECONDARY_REGION_LABEL cfg) false)
        by (left; auto).
      gate_paths cfg ext (SECONDARY_REGION_LABEL cfg) false
        Hparse Ht Hname Hstate Hprimary Hgate.
    + assert (Hgate : health_gate cfg new_state (PRIMARY_REGION_LABEL cfg) true)
        by (right; auto).
      gate_paths cfg ext (PRIMARY_REGION_LABEL cfg) true
        Hparse Ht Hname Hstate Hprimary Hgate.
    + count_calls. eexists _, _, _. repeat (split; [reflexivity |]).
      eapply path_unhandled_state; eauto.
  - count_calls. eexists _, _, _. repeat (split; [reflexivity |]).
    eapply path_not_primary; eauto.
  - count_calls. eexists _, _, _. repeat (split; [reflexivity |]).
    eapply path_classifier_raises; eauto.
Qed.

(** Two facts about the same decoded document name the same values. *)
Ltac same_document :=
  repeat match goal with
         | H1 : result (parse_sns_event ?ext ?ev) = Returned ?a,
           H2 : result (parse_sns_event ?ext ?ev) = Returned ?b |- _ =>
             assert (b = a) by congruence; subst b; clear H2
         | H1 : py_get ?m ?k = Returned ?a,
           H2 : py_get ?m ?k = Returned ?b |- _ =>
             assert (b = a) by congruence; subst b; clear H2
         end.

Lemma health_gate_state (cfg : config) (new_state : pyval) (region_label : string)
    (flag : bool) :
  health_gate cfg new_state region_label flag ->
  eq_str new_state "ALARM" = true \/ eq_str new_state "OK" = true.
Proof. intros [(H & _) | (_ & H & _)]; auto. Qed.

Lemma no_sample_not_healthy (ext : externals) (region_label : string) :
  yields_no_sample (get_metric_statistics ext (region_health_query ext region_label)) ->
  ~ healthy_sample ext region_label.
Proof.
  intros Hno (v & Hv & _). rewrite get_latest_region_health_run in Hv.
  cbv zeta in Hv. unfold yields_no_sample in Hno.
  destruct (get_metric_statistics ext _) as [resp | e]; [| discriminate Hv].
  rewrite Hno in Hv. discriminate Hv.
Qed.

(** X1: on an event classified as the primary alarm whose new state is
    neither ALARM nor OK (INSUFFICIENT_DATA, a missing state, any other
    value) the handler makes no CloudWatch and no Route53 call and
    returns. *)
Theorem unhandled_state_is_noop
    (cfg : config) (ext : externals) (event msg alarm_name new_state : pyval)
    (Hparse : result (parse_sns_event ext event) = Returned msg)
    (Hname : py_get msg "AlarmName" = Returned alarm_name)
    (Hstate : py_get msg "NewStateValue" = Returned new_state)
    (Hprimary : result (var_is_primary_alarm cfg alarm_name) = Returned true)
    (Halarm : eq_str new_state "ALARM" = false)
    (Hok : eq_str new_state "OK" = false) :
  health_queries (trace (lambda_handler cfg ext event)) = [] /\
  publishes (trace (lambda_handler cfg ext event)) = [] /\
  result (lambda_handler cfg ext event) = Returned tt.
Proof.
  destruct (lambda_handler_path cfg ext event) as (qs & ps & r & -> & -> & -> & Hpath).
  destruct Hpath; same_document; try (repeat split; reflexivity); try congruence;
    match goal with
    | H : health_gate _ _ _ _ |- _ => apply health_gate_state in H as [H | H]; congruence
    end.
Qed.

(** X1, witness: the east alarm goes to INSUFFICIENT_DATA. *)
Lemma unhandled_state_is_noop_witness :
  health_queries
    (trace (lambda_handler Example.cfg Cases.ext_down
              (Example.sns_event "east-insufficient"))) = [] /\
  publishes
    (trace (lambda_handler Example.cfg Cases.ext_down
              (Example.sns_event "east-insufficient"))) = [] /\
  result (lambda_handler Example.cfg Cases.ext_down
            (Example.sns_event "east-insufficient")) = Returned tt.
Proof.
  apply (unhandled_state_is_noop Example.cfg Cases.ext_down
           (Example.sns_event "east-insufficient")
           (Example.alarm_doc "RegionDown-east-example.com" "INSUFFICIENT_DATA")
           (PStr "RegionDown-east-example.com") (PStr "INSUFFICIENT_DATA"));
    reflexivity.
Defined.

Lemma calls_app (t1 t2 : list effect) : calls (t1 ++ t2) = calls t1 ++ calls t2.
Proof. apply omap_app. Qed.

Lemma elem_of_calls (ev : effect) (t : list effect) : ev ∈ calls t -> ev ∈ t.
Proof.
  unfold calls. rewrite list_elem_of_omap. intros (x & Hx & Hev).
  destruct x; [discriminate Hev | |]; injection Hev as <-; exact Hx.
Qed.

Lemma parse_sns_event_calls (ext : externals) (event : pyval) :
  calls (trace (parse_sns_event ext event)) = [].
Proof.
  destruct (parse_sns_event_cases ext event) as [[_ ->] | [msg ->]]; reflexivity.
Qed.

Lemma get_latest_region_health_calls (ext : externals) (region_label : string) :
  calls (trace (get_latest_region_health ext region_label)) =
  [CloudWatchCall (region_health_query ext region_label)].
Proof.
  rewrite get_latest_region_health_run. cbv zeta.
  destruct (get_metric_statistics ext _); reflexivity.
Qed.

Ltac list_calls :=
  rewrite ?trace_pair, ?calls_app, ?parse_sns_event_calls,
    ?get_latest_region_health_calls;
  cbn [calls omap list_omap app].

Ltac gate_calls cfg ext region flag :=
  let v := fresh "v" in
  let Hv := fresh "Hv" in
  let h := fresh "h" in
  destruct (get_latest_region_health_returns ext region) as [v Hv];
  rewrite (M_eta (get_latest_region_health ext region)), Hv; run;
  destruct v as [h |]; [destruct (le_half h) |];
  [ list_calls; right; left; eexists; reflexivity
  | rewrite upsert_failover_records_run;
    destruct (change_resource_record_sets ext (HOSTED_ZONE_ID cfg)
                (failover_change_batch cfg flag));
    run; list_calls; right; right; eexists _, _, _; reflexivity
  | list_calls; right; left; eexists; reflexivity ].

(** The calls of a run, in order: none, one query, or one query followed
    by one write. *)
Lemma lambda_handler_calls (cfg : config) (ext : externals) (event : pyval) :
  calls (trace (lambda_handler cfg ext event)) = [] \/
  (exists q, calls (trace (lambda_handler cfg ext event)) = [CloudWatchCall q]) \/
  (exists q zone b,
     calls (trace (lambda_handler cfg ext event)) =
     [CloudWatchCall q; Route53Call zone b]).
Proof.
  destruct (parse_sns_event_returns ext event) as [msg Hparse].
  destruct (truthy msg) eqn:Ht.
  2:{ rewrite (lambda_handler_no_message cfg ext event msg Hparse Ht).
      list_calls. left. reflexivity. }
  unfold lambda_handler. expose.
  rewrite (M_eta (parse_sns_event ext event)), Hparse. run.
  rewrite Ht. cbn [negb].
  destruct (py_get msg "AlarmName") as [alarm_name | e]; run;
    [| list_calls; left; reflexivity].
  destruct (py_get msg "NewStateValue") as [new_state | e]; run;
    [| list_calls; left; reflexivity].
  rewrite (var_is_primary_alarm_eq cfg alarm_name).
  destruct (result (var_is_primary_alarm cfg alarm_name)) as [[|] | e]; run;
    [| list_calls; left; reflexivity | list_calls; left; reflexivity].
  destruct (eq_str new_state "ALARM"); [| destruct (eq_str new_state "OK")].
  - gate_calls cfg ext (SECONDARY_REGION_LABEL cfg) false.
  - gate_calls cfg ext (PRIMARY_REGION_LABEL cfg) true.
  - list_calls. left. reflexivity.
Qed.

(** X2: whatever the event, the configuration and the answers of the
    collaborators, one run of the handler makes at most one CloudWatch
    query and at most one Route53 write, and it writes only after having
    queried: the calls of the run, in program order, are none, one query,
    or one query followed by one write; every write in the trace has a
    query before it and no call after it. *)
Theorem at_most_one_query_and_write
    (cfg : config) (ext : externals) (event : pyval) :
  (length (publishes (trace (lambda_handler cfg ext event))) <=
   length (health_queries (trace (lambda_handler cfg ext event))))%nat /\
  (length (health_queries (trace (lambda_handler cfg ext event))) <= 1)%nat /\
  (calls (trace (lambda_handler cfg ext event)) = [] \/
   (exists q, calls (trace (lambda_handler cfg ext event)) = [CloudWatchCall q]) \/
   (exists q zone b,
      calls (trace (lambda_handler cfg ext event)) =
      [CloudWatchCall q; Route53Call zone b])) /\
  (forall (before after : list effect) (zone : string) (b : change_batch),
     trace (lambda_handler cfg ext event) = before ++ Route53Call zone b :: after ->
     (exists q, CloudWatchCall q ∈ before) /\
     publishes before = [] /\
     calls after = []).
Proof.
  split; [| split; [| split; [apply lambda_handler_calls |]]].
  - destruct (lambda_handler_path cfg ext event) as (qs & ps & r & -> & -> & _ & Hpath).
    destruct Hpath; simpl; lia.
  - destruct (lambda_handler_path cfg ext event) as (qs & ps & r & -> & _ & _ & Hpath).
    destruct Hpath; simpl; lia.
  - intros before after zone b Htrace.
    pose proof (lambda_handler_calls cfg ext event) as Hcalls.
    rewrite Htrace, calls_app in Hcalls.
    change (calls (Route53Call zone b :: after))
      with (Route53Call zone b :: calls after) in Hcalls.
    assert (Hshape : exists q, calls before = [CloudWatchCall q] /\ calls after = []).
    { destruct Hcalls as [H | [[q H] | (q & z' & b' & H)]];
        destruct (calls before) as [| c1 [| c2 l]]; simpl in H;
        try discriminate H.
      - inversion H; subst. eauto.
      - inversion H as [[Hc1 Hc2 Hl]]. destruct l; discriminate Hl. }
    destruct Hshape as (q & Hbefore & Hafter).
    split; [| split; [| exact Hafter]].
    + exists q. apply elem_of_calls. rewrite Hbefore. apply list_elem_of_here.
    + destruct (publishes before) as [| [z' b'] l] eqn:Hp; [reflexivity |].
      assert (Hin : Route53Call z' b' ∈ calls before).
      { unfold calls. apply list_elem_of_omap. exists (Route53Call z' b').
        split; [| reflexivity].
        assert (Hz : (z', b') ∈ publishes before) by (rewrite Hp; apply list_elem_of_here).
        unfold publishes in Hz. apply list_elem_of_omap in Hz as (x & Hx & Hfx).
        destruct x; try discriminate Hfx. injection Hfx as -> ->. exact Hx. }
      rewrite Hbefore in Hin. apply list_elem_of_singleton in Hin. discriminate Hin.
Qed.

(** X2, witness: the run for the east alarm with west at 0.51 makes the
    query and then the write. *)
Lemma at_most_one_query_and_write_witness :
  calls
    (trace (lambda_handler Example.cfg (Example.ext_with [Example.dp 10 (51 # 100)] [])
              (Example.sns_event "east-alarm"))) =
    [CloudWatchCall (region_health_query (Example.ext_with [Example.dp 10 (51 # 100)] [])
                       "west");
     Route53Call "Z0HOSTED" (failover_change_batch Example.cfg false)] /\
  (exists q,
     CloudWatchCall q ∈
       [Log INFO "Event: %s"; Log INFO "Alarm %s changed to %s";
        Log INFO "Event for primary alarm";
        CloudWatchCall
          (region_health_query (Example.ext_with [Example.dp 10 (51 # 100)] []) "west");
        Log INFO "Secondary region latest health datapoint: %s";
        Log INFO "Applying Route53 ChangeResourceRecordSets with %s"]) /\
  calls [Log INFO "Route53 response: %s"; Log INFO "Switched to secondary as PRIMARY"]
    = [].
Proof.
  split; [reflexivity |].
  destruct (at_most_one_query_and_write Example.cfg
              (Example.ext_with [Example.dp 10 (51 # 100)] [])
              (Example.sns_event "east-alarm")) as (_ & _ & _ & Horder).
  destruct (Horder
              [Log INFO "Event: %s"; Log INFO "Alarm %s changed to %s";
               Log INFO "Event for primary alarm";
               CloudWatchCall
                 (region_health_query (Example.ext_with [Example.dp 10 (51 # 100)] [])
                    "west");
               Log INFO "Secondary region latest health datapoint: %s";
               Log INFO "Applying Route53 ChangeResourceRecordSets with %s"]
              [Log INFO "Route53 response: %s";
               Log INFO "Switched to secondary as PRIMARY"]
              "Z0HOSTED" (failover_change_batch Example.cfg false) eq_refl)
    as (Hq & _ & Hafter).
  split; [exact Hq | exact Hafter].
Defined.

(** X3: every Route53 write of the handler is justified: the event decoded
    to a document whose alarm name is classified primary, whose new state
    opened the health gate of a region (ALARM the secondary one, OK the
    primary one), the sample of that region was present and above one half,
    and the write is the single batch of the corresponding flag for the
    configured hosted zone. *)
Theorem every_write_is_justified
    (cfg : config) (ext : externals) (event : pyval) (zone : string) (b : change_batch)
    (Hwrite : (zone, b) ∈ publishes (trace (lambda_handler cfg ext event))) :
  exists (msg alarm_name new_state : pyval) (region_label : string) (flag : bool),
    result (parse_sns_event ext event) = Returned msg /\
    py_get msg "AlarmName" = Returned alarm_name /\
    py_get msg "NewStateValue" = Returned new_state /\
    result (var_is_primary_alarm cfg alarm_name) = Returned true /\
    health_gate cfg new_state region_label flag /\
    healthy_sample ext region_label /\
    zone = HOSTED_ZONE_ID cfg /\
    b = failover_change_batch cfg flag /\
    publishes (trace (lambda_handler cfg ext event)) = [(zone, b)].
Proof.
  destruct (lambda_handler_path cfg ext event) as (qs & ps & r & _ & Hps & _ & Hpath).
  rewrite Hps in *.
  destruct Hpath; try (apply elem_of_nil in Hwrite as []).
  apply list_elem_of_singleton in Hwrite. injection Hwrite as -> ->.
  eexists _, _, _, _, _. repeat split; eauto.
Qed.

(** X3, witness: the write made for the east alarm with west at 0.51. *)
Lemma every_write_is_justified_witness :
  exists (msg alarm_name new_state : pyval) (region_label : string) (flag : bool),
    result (parse_sns_event (Example.ext_with [Example.dp 10 (51 # 100)] [])
              (Example.sns_event "east-alarm")) = Returned msg /\
    py_get msg "AlarmName" = Returned alarm_name /\
    py_get msg "NewStateValue" = Returned new_state /\
    result (var_is_primary_alarm Example.cfg alarm_name) = Returned true /\
    health_gate Example.cfg new_state region_label flag /\
    healthy_sample (Example.ext_with [Example.dp 10 (51 # 100)] []) region_label /\
    "Z0HOSTED" = HOSTED_ZONE_ID Example.cfg /\
    failover_change_batch Example.cfg false = failover_change_batch Example.cfg flag /\
    publishes
      (trace (lambda_handler Example.cfg (Example.ext_with [Example.dp 10 (51 # 100)] [])
                (Example.sns_event "east-alarm"))) =
    [("Z0HOSTED", failover_change_batch Example.cfg false)].
Proof.
  apply (every_write_is_justified Example.cfg
           (Example.ext_with [Example.dp 10 (51 # 100)] [])
           (Example.sns_event "east-alarm") "Z0HOSTED"
           (failover_change_batch Example.cfg false)).
  apply list_elem_of_here.
Defined.

(** X4: when the handler writes to Route53, the answer of Route53 decides
    the outcome: the handler returns when the write is accepted and raises
    the exception of Route53, unchanged, when it is refused. *)
Theorem write_outcome_is_handler_outcome
    (cfg : config) (ext : externals) (event : pyval) (zone : string) (b : change_batch)
    (Hwrite : (zone, b) ∈ publishes (trace (lambda_handler cfg ext event))) :
  result (lambda_handler cfg ext event) =
  match change_resource_record_sets ext zone b with
  | Returned _ => Returned tt
  | Raised e => Raised e
  end.
Proof.
  destruct (lambda_handler_path cfg ext event) as (qs & ps & r & _ & Hps & <- & Hpath).
  rewrite Hps in *.
  destruct Hpath; try (apply elem_of_nil in Hwrite as []).
  apply list_elem_of_singleton in Hwrite. injection Hwrite as -> ->.
  reflexivity.
Qed.

(** X4, witness: Route53 refuses the write made for the east alarm. *)
Lemma write_outcome_is_handler_outcome_witness :
  result (lambda_handler Example.cfg
            (Cases.ext_with [Example.dp 10 (9 # 10)] (Raised (ClientError "InvalidChangeBatch")))
            (Example.sns_event "east-alarm")) =
  Raised (ClientError "InvalidChangeBatch").
Proof.
  apply (write_outcome_is_handler_outcome Example.cfg
           (Cases.ext_with [Example.dp 10 (9 # 10)] (Raised (ClientError "InvalidChangeBatch")))
           (Example.sns_event "east-alarm") "Z0HOSTED"
           (failover_change_batch Example.cfg false)).
  apply list_elem_of_here.
Defined.

(** X5: a payload that decodes to a truthy JSON value other than an object
    (a string, a non-empty list, a non-zero number, [true]) is not treated
    as "no event": the handler raises [AttributeError] at [msg.get], before
    any CloudWatch or Route53 call. *)
Theorem non_object_payload_raises
    (cfg : config) (ext : externals) (event msg : pyval)
    (Hparse : result (parse_sns_event ext event) = Returned msg)
    (Htruthy : truthy msg = true)
    (Hshape : forall d, msg <> PDict d) :
  result (lambda_handler cfg ext event) = Raised AttributeError /\
  health_queries (trace (lambda_handler cfg ext event)) = [] /\
  publishes (trace (lambda_handler cfg ext event)) = [].
Proof.
  destruct (lambda_handler_path cfg ext event) as (qs & ps & r & -> & -> & -> & Hpath).
  destruct Hpath; same_document; try congruence; try (repeat split; reflexivity);
    match goal with
    | H : py_get ?m _ = Returned _ |- _ =>
        destruct m; try discriminate H; edestruct Hshape; reflexivity
    end.
Qed.

(** X5, witness: the payload is a JSON string. *)
Lemma non_object_payload_raises_witness :
  result (lambda_handler Example.cfg Cases.ext_down (Example.sns_event "a-string")) =
    Raised AttributeError /\
  health_queries
    (trace (lambda_handler Example.cfg Cases.ext_down (Example.sns_event "a-string"))) = [] /\
  publishes
    (trace (lambda_handler Example.cfg Cases.ext_down (Example.sns_event "a-string"))) = [].
Proof.
  apply (non_object_payload_raises Example.cfg Cases.ext_down
           (Example.sns_event "a-string") (PStr "RegionDown-east-example.com")
           eq_refl eq_refl).
  intros d Hd. discriminate Hd.
Defined.

(** X6: a payload that decodes to a falsy value (the empty object, the
    empty list or string, zero, [false], [null]) is handled like a decode
    failure: the handler logs the abort and returns, with no CloudWatch and
    no Route53 call, and without the exception log entry of a failed
    decoding. *)
Theorem falsy_payload_is_noop
    (cfg : config) (ext : externals) (event msg : pyval)
    (Hsteps : parse_sns_event ext event = ([], Returned msg))
    (Hfalsy : truthy msg = false) :
  lambda_handler cfg ext event =
    ([Log INFO "Event: %s"; Log ERROR "No parsed message, aborting"], Returned tt) /\
  health_queries (trace (lambda_handler cfg ext event)) = [] /\
  publishes (trace (lambda_handler cfg ext event)) = [].
Proof.
  assert (Hparse : result (parse_sns_event ext event) = Returned msg)
    by (rewrite Hsteps; reflexivity).
  rewrite (lambda_handler_no_message cfg ext event msg Hparse Hfalsy), Hsteps.
  repeat split; reflexivity.
Qed.

(** X6, witness: the payload is the empty object. *)
Lemma falsy_payload_is_noop_witness :
  lambda_handler Example.cfg Cases.ext_down (Example.sns_event "empty-object") =
    ([Log INFO "Event: %s"; Log ERROR "No parsed message, aborting"], Returned tt).
Proof.
  apply (falsy_payload_is_noop Example.cfg Cases.ext_down
           (Example.sns_event "empty-object") (PDict [])); reflexivity.
Defined.

(** X7: an alarm name that is a non-zero number or [true] makes the
    membership test of the classifier raise [TypeError]; the handler raises
    it before any CloudWatch or Route53 call (the record name having a
    dot). *)
Theorem numeric_alarm_name_raises
    (cfg : config) (ext : externals) (event msg alarm_name : pyval)
    (Hdot : mem_char "." (RECORD_NAME cfg) = true)
    (Hparse : result (parse_sns_event ext event) = Returned msg)
    (Hname : py_get msg "AlarmName" = Returned alarm_name)
    (Htruthy : truthy alarm_name = true)
    (Hnumber : match alarm_name with
               | PInt _ | PFloat _ | PBool _ => True
               | _ => False
               end) :
  var_is_primary_alarm cfg alarm_name = ([], Raised TypeError) /\
  result (lambda_handler cfg ext event) = Raised TypeError /\
  health_queries (trace (lambda_handler cfg ext event)) = [] /\
  publishes (trace (lambda_handler cfg ext event)) = [].
Proof.
  assert (Hcls : var_is_primary_alarm cfg alarm_name = ([], Raised TypeError)).
  { rewrite var_is_primary_alarm_run, Hdot, Htruthy.
    destruct alarm_name; try destruct Hnumber; reflexivity. }
  split; [exact Hcls |].
  assert (Ht : truthy msg = true).
  { destruct msg as [| | | | | | d]; try discriminate Hname.
    destruct d; [| reflexivity].
    injection Hname as <-. discriminate Htruthy. }
  destruct (lambda_handler_path cfg ext event) as (qs & ps & r & -> & -> & -> & Hpath).
  destruct Hpath; same_document; try congruence;
    match goal with
    | H : result (var_is_primary_alarm _ _) = _ |- _ =>
        rewrite Hcls in H; unfold result in H; simpl in H
    end; try discriminate.
  match goal with H : Raised _ = Raised _ |- _ => injection H as <- end.
  repeat split; reflexivity.
Qed.

(** X7, witness: the alarm name is the number 7. *)
Lemma numeric_alarm_name_raises_witness :
  result (lambda_handler Example.cfg Cases.ext_down (Example.sns_event "numeric-name")) =
    Raised TypeError /\
  health_queries
    (trace (lambda_handler Example.cfg Cases.ext_down (Example.sns_event "numeric-name")))
    = [] /\
  publishes
    (trace (lambda_handler Example.cfg Cases.ext_down (Example.sns_event "numeric-name")))
    = [].
Proof.
  apply (numeric_alarm_name_raises Example.cfg Cases.ext_down
           (Example.sns_event "numeric-name")
           (PDict [("AlarmName", PInt 7); ("NewStateValue", PStr "ALARM")])
           (PInt 7) eq_refl eq_refl eq_refl eq_refl I).
Defined.

(** X8: when CloudWatch fails or has no datapoint for every query, no event
    leads to a Route53 write, and a run that raises has raised before
    querying CloudWatch: the failed telemetry neither triggers a switch nor
    makes the handler fail. *)
Theorem telemetry_outage_never_switches
    (cfg : config) (ext : externals) (event : pyval)
    (Hout : forall q, yields_no_sample (get_metric_statistics ext q)) :
  publishes (trace (lambda_handler cfg ext event)) = [] /\
  (forall e, result (lambda_handler cfg ext event) = Raised e ->
             health_queries (trace (lambda_handler cfg ext event)) = []).
Proof.
  destruct (lambda_handler_path cfg ext event) as (qs & ps & r & -> & -> & -> & Hpath).
  destruct Hpath; try (split; [reflexivity | intros e' He'; (reflexivity || discriminate He')]).
  match goal with
  | H : healthy_sample _ _ |- _ => destruct (no_sample_not_healthy _ _ (Hout _) H)
  end.
Qed.

(** X8, witness: CloudWatch throttles every call while the east alarm
    fires. *)
Lemma telemetry_outage_never_switches_witness :
  publishes
    (trace (lambda_handler Example.cfg Example.ext_down (Example.sns_event "east-alarm")))
    = [].
Proof.
  apply (telemetry_outage_never_switches Example.cfg Example.ext_down
           (Example.sns_event "east-alarm")).
  intros q. exact I.
Defined.

(** ** More on the Health Oracle *)

Lemma distinct_timestamps_inj (l : list datapoint) (x y : datapoint) :
  NoDup (Timestamp <$> l) -> x ∈ l -> y ∈ l -> Timestamp x = Timestamp y -> x = y.
Proof.
  induction l as [| d l IH]; simpl; intros Hnd Hx Hy Heq.
  - apply elem_of_nil in Hx as [].
  - apply NoDup_cons in Hnd as [Hd Hnd].
    apply elem_of_cons in Hx as [-> | Hx]; apply elem_of_cons in Hy as [-> | Hy];
      [reflexivity | | | auto].
    + destruct Hd. rewrite Heq. apply list_elem_of_fmap_2. exact Hy.
    + destruct Hd. rewrite <- Heq. apply list_elem_of_fmap_2. exact Hx.
Qed.

(** X9: among the datapoints that share the latest timestamp, the oracle
    returns the value of the one listed last in the response. *)
Theorem latest_tie_goes_to_last_listed
    (ext : externals) (region_label : string) (dps : list datapoint)
    (Hresp : get_metric_statistics ext (region_health_query ext region_label) =
             Returned {| Datapoints := Some dps |})
    (Hne : dps <> []) :
  exists latest,
    (forall d, d ∈ dps -> Timestamp d <= Timestamp latest) /\
    last (filter (fun d => Timestamp d = Timestamp latest) dps) = Some latest /\
    result (get_latest_region_health ext region_label) = Returned (Average latest).
Proof.
  rewrite get_latest_region_health_run. cbv zeta. rewrite Hresp.
  cbn [Datapoints default from_option id].
  destruct (last_sorted_by_timestamp dps Hne) as (latest & Hlast & _ & Hmax).
  rewrite Hlast. exists latest. split; [exact Hmax |]. split; [| reflexivity].
  rewrite <- (sorted_by_timestamp_stable (Timestamp latest) dps).
  apply last_Some in Hlast as [l' ->].
  rewrite filter_app, filter_cons_True by reflexivity.
  apply last_snoc.
Qed.

(** X9, witness: two datapoints stamped 20; the one listed second wins. *)
Lemma latest_tie_goes_to_last_listed_witness :
  exists latest,
    (forall d, d ∈ [Example.dp 20 (1 # 10); Example.dp 10 (1 # 2); Example.dp 20 (9 # 10)] ->
               Timestamp d <= Timestamp latest) /\
    last (filter (fun d => Timestamp d = Timestamp latest)
            [Example.dp 20 (1 # 10); Example.dp 10 (1 # 2); Example.dp 20 (9 # 10)]) =
      Some latest /\
    result (get_latest_region_health
              (Cases.ext_with
                 [Example.dp 20 (1 # 10); Example.dp 10 (1 # 2); Example.dp 20 (9 # 10)]
                 (Returned "PENDING")) "west") = Returned (Average latest).
Proof.
  apply (latest_tie_goes_to_last_listed
           (Cases.ext_with
              [Example.dp 20 (1 # 10); Example.dp 10 (1 # 2); Example.dp 20 (9 # 10)]
              (Returned "PENDING")) "west"
           [Example.dp 20 (1 # 10); Example.dp 10 (1 # 2); Example.dp 20 (9 # 10)]
           eq_refl).
  discriminate.
Defined.

(** X10: when the timestamps of the datapoints are pairwise distinct, the
    order in which the backend lists them does not matter: two responses
    that are permutations of each other give the same sample. *)
Theorem sample_order_is_irrelevant
    (ext1 ext2 : externals) (region_label : string) (dps1 dps2 : list datapoint)
    (Hresp1 : get_metric_statistics ext1 (region_health_query ext1 region_label) =
              Returned {| Datapoints := Some dps1 |})
    (Hresp2 : get_metric_statistics ext2 (region_health_query ext2 region_label) =
              Returned {| Datapoints := Some dps2 |})
    (Hperm : dps1 ≡ₚ dps2)
    (Hdistinct : NoDup (Timestamp <$> dps1)) :
  result (get_latest_region_health ext1 region_label) =
  result (get_latest_region_health ext2 region_label).
Proof.
  rewrite !get_latest_region_health_run. cbv zeta. rewrite Hresp1, Hresp2.
  cbn [Datapoints default from_option id result snd].
  destruct dps1 as [| d1 l1].
  - apply Permutation_nil_l in Hperm as ->. reflexivity.
  - assert (Hne2 : dps2 <> []).
    { intros ->. apply Permutation_nil_r in Hperm. discriminate Hperm. }
    destruct (last_sorted_by_timestamp (d1 :: l1)) as (m1 & -> & Hin1 & Hmax1);
      [discriminate |].
    destruct (last_sorted_by_timestamp dps2 Hne2) as (m2 & -> & Hin2 & Hmax2).
    rewrite <- Hperm in Hin2.
    assert (m1 = m2) as ->; [| reflexivity].
    apply (distinct_timestamps_inj (d1 :: l1)); auto.
    assert (Hin1' : m1 ∈ dps2) by (rewrite <- Hperm; exact Hin1).
    pose proof (Hmax1 _ Hin2). pose proof (Hmax2 _ Hin1'). lia.
Qed.

(** X10, witness: the same three datapoints in two orders. *)
Lemma sample_order_is_irrelevant_witness :
  result (get_latest_region_health
            (Cases.ext_with
               [Example.dp 20 (1 # 10); Example.dp 10 (9 # 10); Example.dp 15 (1 # 2)]
               (Returned "PENDING")) "west") =
  result (get_latest_region_health
            (Cases.ext_with
               [Example.dp 10 (9 # 10); Example.dp 15 (1 # 2); Example.dp 20 (1 # 10)]
               (Returned "PENDING")) "west").
Proof.
  apply (sample_order_is_irrelevant
           (Cases.ext_with
              [Example.dp 20 (1 # 10); Example.dp 10 (9 # 10); Example.dp 15 (1 # 2)]
              (Returned "PENDING"))
           (Cases.ext_with
              [Example.dp 10 (9 # 10); Example.dp 15 (1 # 2); Example.dp 20 (1 # 10)]
              (Returned "PENDING"))
           "west"
           [Example.dp 20 (1 # 10); Example.dp 10 (9 # 10); Example.dp 15 (1 # 2)]
           [Example.dp 10 (9 # 10); Example.dp 15 (1 # 2); Example.dp 20 (1 # 10)]
           eq_refl eq_refl).
  - apply (Permutation_cons_append
             [Example.dp 10 (9 # 10); Example.dp 15 (1 # 2)] (Example.dp 20 (1 # 10))).
  - cbn.
    repeat (apply NoDup_cons; split;
            [intros H; repeat (apply elem_of_cons in H as [H | H]; [discriminate H |]);
             apply elem_of_nil in H as [] |]).
    apply NoDup_nil_2.
Defined.

(** ** More on the Alarm Interpreter *)

(** X11: only the first record of the envelope is decoded: when it carries
    a message string, the interpreter returns the document of that string,
    without logging, or the sentinel when the string is not a JSON
    document; the other records of the batch play no part. *)
Theorem only_first_record_is_decoded
    (ext : externals) (event record sns_record : pyval) (rest : list pyval) (s : string)
    (Hrecords : getitem_key event "Records" = Returned (PList (record :: rest)))
    (Hsns : getitem_key record "Sns" = Returned sns_record)
    (Hmessage : getitem_key sns_record "Message" = Returned (PStr s)) :
  parse_sns_event ext event =
  match json_loads ext s with
  | Some msg => ([], Returned msg)
  | None => ([Log EXCEPTION "Failed to parse SNS event: %s"], Returned PNone)
  end.
Proof.
  unfold parse_sns_event, lift, ret.
  rewrite Hrecords. cbn [bind app getitem_0]. rewrite Hsns. cbn [bind app].
  rewrite Hmessage. cbn [bind app py_json_loads].
  destruct (json_loads ext s); reflexivity.
Qed.

(** X11, witness: a batch of two records; the second one is not a JSON
    document and is never looked at. *)
Lemma only_first_record_is_decoded_witness :
  parse_sns_event Cases.ext_down (Cases.sns_batch "east-alarm" "{not json") =
  ([], Returned (Example.alarm_doc "RegionDown-east-example.com" "ALARM")).
Proof.
  apply (only_first_record_is_decoded Cases.ext_down
           (Cases.sns_batch "east-alarm" "{not json")
           (PDict [("Sns", PDict [("Message", PStr "east-alarm")])])
           (PDict [("Message", PStr "east-alarm")])
           [PDict [("Sns", PDict [("Message", PStr "{not json")])]]
           "east-alarm"); reflexivity.
Defined.

Lemma append_assoc (s t u : string) : (s +:+ t) +:+ u = s +:+ (t +:+ u).
Proof.
  induction s as [| c s IH]; [reflexivity |].
  rewrite !append_cons, IH. reflexivity.
Qed.

Lemma is_substring_trans (a b s : string) :
  is_substring a b -> is_substring b s -> is_substring a s.
Proof.
  intros (pre1 & post1 & ->) (pre2 & post2 & ->).
  exists (pre2 +:+ pre1), (post1 +:+ post2).
  rewrite !append_assoc. reflexivity.
Qed.

(** X12: the classifier looks for the primary label only.  When the primary
    label occurs in the secondary label, every non-empty alarm name that
    mentions the secondary label is classified as the primary alarm (the
    record name having a dot). *)
Theorem nested_labels_misclassify
    (cfg : config) (s : string)
    (Hdot : mem_char "." (RECORD_NAME cfg) = true)
    (Hnested : is_substring (PRIMARY_REGION_LABEL cfg) (SECONDARY_REGION_LABEL cfg))
    (Hmentions : is_substring (SECONDARY_REGION_LABEL cfg) s)
    (Hnonempty : s <> "") :
  var_is_primary_alarm cfg (PStr s) = ([], Returned true).
Proof.
  rewrite (var_is_primary_alarm_string cfg s Hdot).
  apply String.eqb_neq in Hnonempty. rewrite Hnonempty.
  pose proof (is_substring_trans _ _ _ Hnested Hmentions) as Hsub.
  apply contains_spec in Hsub. rewrite Hsub. reflexivity.
Qed.

(** X12, witness: with the labels [us] and [us-west], the alarm of the
    secondary region is classified as the primary alarm. *)
Lemma nested_labels_misclassify_witness :
  var_is_primary_alarm Cases.cfg_nested (PStr "RegionDown-us-west-example.com") =
  ([], Returned true).
Proof.
  apply (nested_labels_misclassify Cases.cfg_nested "RegionDown-us-west-example.com").
  - reflexivity.
  - apply contains_spec. reflexivity.
  - apply contains_spec. reflexivity.
  - discriminate.
Defined.

(** ** More on the Record Publisher *)

(** X13: the two entries of a batch address two different record sets
    (name, type, set identifier) exactly when the two configured set
    identifiers differ; the publisher does not check it. *)
Theorem batch_keys_distinct_iff (cfg : config) (flag : bool) :
  NoDup (rrset_key <$> (ResourceRecordSet <$> failover_changes cfg flag)) <->
  PRIMARY_SET_ID cfg <> SECONDARY_SET_ID cfg.
Proof.
  destruct flag;
    [rewrite failover_changes_true | rewrite failover_changes_false];
    cbn [fmap list_fmap rrset_key ResourceRecordSet Name Type_ SetIdentifier];
    rewrite NoDup_cons, list_elem_of_singleton; split.
  - intros [Hne _] Heq. apply Hne. rewrite Heq. reflexivity.
  - intros Hne. split; [intros [=]; congruence | apply NoDup_singleton].
  - intros [Hne _] Heq. apply Hne. rewrite Heq. reflexivity.
  - intros Hne. split; [intros [=]; congruence | apply NoDup_singleton].
Qed.

Lemma apply_batch_overwrites
    (cfg : config) (f1 f2 : bool)
    (zone : gmap (string * string * string) resource_record_set) :
  apply_batch (apply_batch zone (failover_change_batch cfg f1))
    (failover_change_batch cfg f2) =
  apply_batch zone (failover_change_batch cfg f2).
Proof.
  apply map_eq. intros i. rewrite !apply_batch_failover.
  destruct f1, f2; rewrite ?failover_changes_true, ?failover_changes_false;
    unfold rrset_key; simpl; repeat case_decide; try reflexivity; congruence.
Qed.

(** X14: the last write wins.  Under create-or-replace, any sequence of
    publishes leaves the hosted zone exactly as its last publish alone
    would: both batches address the same record sets, so nothing of an
    earlier publish survives a later one. *)
Theorem last_publish_wins
    (cfg : config) (flags : list bool) (flag : bool)
    (zone : gmap (string * string * string) resource_record_set) :
  foldl apply_batch zone (failover_change_batch cfg <$> (flags ++ [flag])) =
  apply_batch zone (failover_change_batch cfg flag).
Proof.
  revert zone. induction flags as [| f flags IH]; intros zone; [reflexivity |].
  cbn [app fmap list_fmap foldl]. change (list_fmap _ _ ?g ?l) with (g <$> l).
  rewrite IH. apply apply_batch_overwrites.
Qed.

(** X13, witness: the example configuration has two set identifiers. *)
Lemma batch_keys_distinct_iff_witness :
  NoDup (rrset_key <$> (ResourceRecordSet <$> failover_changes Example.cfg false)).
Proof.
  apply (batch_keys_distinct_iff Example.cfg false). discriminate.
Defined.
